(** * Smart Todo Priority Service: the scoring engine and its request handler

    A shallow embedding of [ml_service/app/scoring.py] and
    [ml_service/app/main.py], and the properties of the priority score.

    Conventions of the embedding.
    - A Python [float] is an exact rational ([Q]).  Every constant of the
      source is a decimal literal with at most two decimals, so the sums the
      source forms are decimals, which the binary arithmetic of Python follows
      up to its representation error; [round(_, 3)] removes that error from
      the score.  Equalities between scores are stated with [==].
    - A Python [str] is a [string] of 8-bit characters read as the code points
      U+0000..U+00FF; [lower], [split] and [strip] follow [str] on that range.
    - A [datetime] is its wall-clock reading in microseconds since
      0001-01-01T00:00:00 together with an optional fixed UTC offset; the
      range of [datetime] (years 1..9999) is part of the model.
    - [datetime.now] reads a clock that is threaded through the calls, and an
      exception ends the computation: [M A] is a state and error monad.

    The second half of the file embeds the three tasks of
    [airflow/dags/todo_ml_pipeline.py] and proves further properties
    (marked X1, X2, ...).  Where a statement depends on the last bit of a
    score, it is settled on [Binary64], the same scorer on binary64
    numbers. *)

From Stdlib Require Import ZArith QArith Qround Qminmax String Ascii List Bool Lia Lqa.
From Stdlib Require Import DecimalString.
From Stdlib Require Import Permutation.
From Corelib Require PrimFloat FloatOps SpecFloat.

Set Warnings "-inexact-float".
Import ListNotations.

Local Open Scope Z_scope.

(** ** Python [str] on code points below 256 *)

Module Str.

Definition ord (c : ascii) : Z := Z.of_N (N_of_ascii c).

Definition chr (n : Z) : ascii := ascii_of_N (Z.to_N n).

(** [str.isspace] of one character: TAB LF VT FF CR, FS GS RS US, SPACE,
    NEL (0x85) and NBSP (0xa0). *)
Definition isspace (c : ascii) : bool :=
  let n := ord c in
  ((9 <=? n) && (n <=? 13)) || ((28 <=? n) && (n <=? 32))
  || (n =? 133) || (n =? 160).

(** [str.lower] of one character: A-Z, and the Latin-1 capitals 0xC0..0xDE
    without the multiplication sign 0xD7, move up by 32. *)
Definition lower_char (c : ascii) : ascii :=
  let n := ord c in
  if ((65 <=? n) && (n <=? 90))
     || ((192 <=? n) && (n <=? 222) && negb (n =? 215))
  then chr (n + 32) else c.

Fixpoint lower (s : string) : string :=
  match s with
  | EmptyString => EmptyString
  | String c s' => String (lower_char c) (lower s')
  end.

Fixpoint startswith (s p : string) : bool :=
  match p, s with
  | EmptyString, _ => true
  | String _ _, EmptyString => false
  | String a p', String b s' => Ascii.eqb a b && startswith s' p'
  end.

(** [sub in s] *)
Fixpoint contains (sub s : string) : bool :=
  startswith s sub
  || match s with
     | EmptyString => false
     | String _ s' => contains sub s'
     end.

Definition is_empty (s : string) : bool :=
  match s with EmptyString => true | String _ _ => false end.

(** [s.split()]: the maximal runs of non-space characters; [cur] is the run
    being read. *)
Fixpoint split_from (cur s : string) : list string :=
  match s with
  | EmptyString => if is_empty cur then [] else [cur]
  | String c s' =>
      if isspace c
      then (if is_empty cur then split_from EmptyString s'
            else cur :: split_from EmptyString s')
      else split_from (cur ++ String c EmptyString) s'
  end.

Definition split (s : string) : list string := split_from EmptyString s.

Fixpoint lstrip (s : string) : string :=
  match s with
  | EmptyString => EmptyString
  | String c s' => if isspace c then lstrip s' else s
  end.

Fixpoint rstrip (s : string) : string :=
  match s with
  | EmptyString => EmptyString
  | String c s' =>
      let r := rstrip s' in
      if is_empty r && isspace c then EmptyString else String c r
  end.

Definition strip (s : string) : string := rstrip (lstrip s).

Definition len (s : string) : Z := Z.of_nat (String.length s).

End Str.

(** ** Python numbers: [min], [max], [round] on exact rationals *)

Module Num.

Local Open Scope Q_scope.

Definition Qltb (a b : Q) : bool := negb (Qle_bool b a).

(** [min(a, b)] keeps its first argument unless the second is smaller. *)
Definition py_min (a b : Q) : Q := if Qltb b a then b else a.

(** [max(a, b)] keeps its first argument unless the second is larger. *)
Definition py_max (a b : Q) : Q := if Qltb a b then b else a.

(** Nearest integer, ties to the even one.  (The totals of the source are
    multiples of 0.01, never a tie at the third decimal.) *)
Definition round_half_even (x : Q) : Z :=
  let f := Qfloor x in
  let r := x - inject_Z f in
  if Qltb r (1 # 2) then f
  else if Qltb (1 # 2) r then (f + 1)%Z
  else if Z.even f then f else (f + 1)%Z.

(** [round(x, ndigits)] for [ndigits >= 0]. *)
Definition py_round (x : Q) (ndigits : nat) : Q :=
  let p := inject_Z (10 ^ Z.of_nat ndigits) in
  inject_Z (round_half_even (x * p)) / p.

End Num.

(** ** Exceptions, the clock, and the monad of the service *)

Module Py.

Inductive exn : Type :=
| TypeError
| OverflowError
| ValidationError
| HTTPException (status_code : Z).

Inductive result (A : Type) : Type :=
| Ok (a : A)
| Raise (e : exn).

Arguments Ok {A} a.
Arguments Raise {A} e.

(** The wall clock: [readings n] is what the [n]-th call of [datetime.now]
    returns, in microseconds since 0001-01-01T00:00:00 UTC. *)
Record Clock : Type := { readings : nat -> Z; reads : nat }.

Definition tick (c : Clock) : Clock :=
  {| readings := readings c; reads := S (reads c) |}.

Definition current (c : Clock) : Z := readings c (reads c).

(** A clock that shows the same instant at every reading. *)
Definition fixed_clock (now : Z) : Clock :=
  {| readings := fun _ => now; reads := O |}.

Definition M (A : Type) : Type := Clock -> result (A * Clock).

Definition ret {A} (a : A) : M A := fun c => Ok (a, c).

Definition bind {A B} (m : M A) (k : A -> M B) : M B :=
  fun c => match m c with
           | Ok (a, c') => k a c'
           | Raise e => Raise e
           end.

Definition raise {A} (e : exn) : M A := fun _ => Raise e.

Definition lift {A} (r : result A) : M A :=
  fun c => match r with Ok a => Ok (a, c) | Raise e => Raise e end.

End Py.

Declare Scope py_scope.
Delimit Scope py_scope with py.
Notation "x <- m ;; k" := (Py.bind m (fun x => k))
  (at level 61, m at next level, right associativity) : py_scope.

(** ** [datetime] and [timedelta] *)

Module Datetime.

Import Py.

(** [wall]: the date and time fields as microseconds since
    0001-01-01T00:00:00; [tzinfo]: [None] for a naive value, [Some off] for
    an aware one with the fixed UTC offset [off] in microseconds. *)
Record datetime : Type := { wall : Z; tzinfo : option Z }.

(** A [timedelta], in microseconds. *)
Definition timedelta : Type := Z.

(** [timezone.utc] *)
Definition utc : Z := 0.

(** One microsecond past [datetime.max]: the years 1..9999 have 3652059
    days. *)
Definition WALL_END : Z := 3652059 * 86400 * 1000000.

Definition in_range (w : Z) : bool := (0 <=? w) && (w <? WALL_END).

(** [value.replace(tzinfo=tz)] *)
Definition replace_tzinfo (value : datetime) (tz : Z) : datetime :=
  {| wall := wall value; tzinfo := Some tz |}.

(** [value.astimezone(timezone.utc)]: the offset is taken off the wall
    clock and the result must be a date of the years 1..9999, else
    [OverflowError].  A naive value would be read in the local zone of the
    system (taken as UTC); [_normalize_dt] never passes one. *)
Definition astimezone_utc (value : datetime) : result datetime :=
  let off := match tzinfo value with Some o => o | None => utc end in
  let w := wall value - off in
  if in_range w then Ok {| wall := w; tzinfo := Some utc |}
  else Raise OverflowError.

(** [a - b] on datetimes: both aware or both naive. *)
Definition sub (a b : datetime) : result timedelta :=
  match tzinfo a, tzinfo b with
  | Some oa, Some ob => Ok ((wall a - oa) - (wall b - ob))
  | None, None => Ok (wall a - wall b)
  | _, _ => Raise TypeError
  end.

(** [delta.total_seconds()] *)
Definition total_seconds (delta : timedelta) : Q :=
  (inject_Z delta / inject_Z 1000000)%Q.

(** [datetime.now(timezone.utc)] *)
Definition now_utc : M datetime :=
  fun c => Ok ({| wall := current c; tzinfo := Some utc |}, tick c).

End Datetime.

(** ** scoring.py *)

Module Scoring.

Import Py Num Datetime.
Local Open Scope Q_scope.
Local Open Scope string_scope.
Local Open Scope py_scope.

Definition KEYWORD_WEIGHTS : list (string * Q) :=
  [ ("urgent", 0.35);
    ("asap", 0.3);
    ("important", 0.25);
    ("today", 0.2);
    ("tomorrow", 0.15);
    ("email", 0.05);
    ("call", 0.05) ].

Definition TAG_WEIGHTS : list (string * Q) :=
  [ ("work", 0.1);
    ("home", 0.05);
    ("bug", 0.2);
    ("feature", 0.15) ].

(** [d.get(key, default)] on a dict given by its items. *)
Fixpoint dict_get (d : list (string * Q)) (key : string) (default : Q) : Q :=
  match d with
  | [] => default
  | (k, v) :: d' => if String.eqb k key then v else dict_get d' key default
  end.

Record TodoFeatures : Type := {
  title : string;
  completed : bool;
  created_at : option datetime;
  due_date : option datetime;
  tags : list string
}.

Definition _keyword_bonus (title : string) : Q :=
  let title_lc := Str.lower title in
  let bonus :=
    fold_left
      (fun bonus kw => if Str.contains (fst kw) title_lc
                       then bonus + snd kw else bonus)
      KEYWORD_WEIGHTS 0.0 in
  let bonus :=
    if (8 <=? Z.of_nat (List.length (Str.split title_lc)))%Z
    then bonus + 0.05 else bonus in
  py_min bonus 0.45.

Definition _tag_bonus (tags : list string) : Q :=
  match tags with
  | [] => 0.0
  | _ =>
      let bonus :=
        fold_left
          (fun bonus raw =>
             let tag := Str.strip (Str.lower raw) in
             bonus + dict_get TAG_WEIGHTS tag 0.03)
          tags 0.0 in
      py_min bonus 0.25
  end.

Definition _age_bonus (created_at : option datetime) : M Q :=
  match created_at with
  | None => ret 0.0
  | Some created_at =>
      now <- now_utc ;;
      delta <- lift (sub now created_at) ;;
      let age_hours := total_seconds delta / 3600 in
      if Qle_bool age_hours 24 then ret 0.05
      else if Qle_bool age_hours (24 * 3) then ret 0.1
      else if Qle_bool age_hours (24 * 7) then ret 0.15
      else ret 0.2
  end.

Definition _due_date_bonus (due_date : option datetime) : M Q :=
  match due_date with
  | None => ret 0.0
  | Some due_date =>
      now <- now_utc ;;
      delta <- lift (sub due_date now) ;;
      let delta_hours := total_seconds delta / 3600 in
      if Qle_bool delta_hours 0 then ret 0.3
      else if Qle_bool delta_hours 24 then ret 0.25
      else if Qle_bool delta_hours (24 * 3) then ret 0.2
      else if Qle_bool delta_hours (24 * 7) then ret 0.1
      else ret 0.05
  end.

Definition _normalize_dt (value : option datetime) : result (option datetime) :=
  match value with
  | None => Ok None
  | Some value =>
      match tzinfo value with
      | None => Ok (Some (replace_tzinfo value utc))
      | Some _ =>
          match astimezone_utc value with
          | Ok v => Ok (Some v)
          | Raise e => Raise e
          end
      end
  end.

Definition priority_score (features : TodoFeatures) : M Q :=
  let score := 0.35 in
  let score := score + _keyword_bonus (title features) in
  let score := score + _tag_bonus (tags features) in
  created <- lift (_normalize_dt (created_at features)) ;;
  age <- _age_bonus created ;;
  let score := score + age in
  due <- lift (_normalize_dt (due_date features)) ;;
  due_bonus <- _due_date_bonus due ;;
  let score := score + due_bonus in
  let score := if completed features then score - 0.6 else score in
  ret (py_max 0.0 (py_min 1.0 (py_round score 3))).

End Scoring.

(** ** main.py *)

Module Main.

Import Py Num Datetime.
Local Open Scope string_scope.
Local Open Scope py_scope.

(** The values a raw tag entry is taken from: [None], a [str], an [int] or a
    [bool]. *)
Inductive pyval : Type :=
| PyNone
| PyStr (s : string)
| PyInt (n : Z)
| PyBool (b : bool).

(** [bool(item)] *)
Definition truthy (item : pyval) : bool :=
  match item with
  | PyNone => false
  | PyStr s => negb (Str.is_empty s)
  | PyInt n => negb (n =? 0)%Z
  | PyBool b => b
  end.

(** [str(item)] *)
Definition str (item : pyval) : string :=
  match item with
  | PyNone => "None"
  | PyStr s => s
  | PyInt n => NilZero.string_of_int (Z.to_int n)
  | PyBool true => "True"
  | PyBool false => "False"
  end.

(** What the validator of [tags] receives: [None], a bare string, or a
    sequence of values. *)
Inductive raw_tags : Type :=
| RawNone
| RawStr (s : string)
| RawSeq (items : list pyval).

Definition normalize_tags (value : raw_tags) : list string :=
  match value with
  | RawNone => []
  | RawStr s => [s]
  | RawSeq items =>
      fold_left
        (fun tags item =>
           if negb (truthy item) then tags
           else (tags ++ [Str.strip (str item)])%list)
        items []
  end.

(** The declared constraints of the fields [title] and [tags], checked by
    pydantic after the [mode="before"] validator has run. *)
Definition check_fields (title : string) (tags : list string) : bool :=
  ((1 <=? Str.len title) && (Str.len title <=? 200)
   && (Z.of_nat (List.length tags) <=? 20))%Z.

Module TodoPayload.

Record t : Type := {
  title : string;
  completed : bool;
  created_at : option datetime;
  due_date : option datetime;
  tags : list string
}.

(** [TodoPayload(title=..., completed=..., created_at=..., due_date=...,
    tags=...)] *)
Definition init (title : string) (completed : bool)
    (created_at due_date : option datetime) (tags : raw_tags) : result t :=
  let tags := normalize_tags tags in
  if check_fields title tags
  then Ok {| title := title; completed := completed;
             created_at := created_at; due_date := due_date; tags := tags |}
  else Raise ValidationError.

End TodoPayload.

Module ScoreResult.

(** [class ScoreResult(TodoPayload)]: the fields of [TodoPayload], its
    validator of [tags], and [priority_score]. *)
Record t : Type := {
  title : string;
  completed : bool;
  created_at : option datetime;
  due_date : option datetime;
  tags : list string;
  priority_score : Q
}.

Definition init (title : string) (completed : bool)
    (created_at due_date : option datetime) (tags : raw_tags)
    (priority_score : Q) : result t :=
  let tags := normalize_tags tags in
  if check_fields title tags
  then Ok {| title := title; completed := completed;
             created_at := created_at; due_date := due_date; tags := tags;
             priority_score := priority_score |}
  else Raise ValidationError.

End ScoreResult.

Record ScoreResponse : Type := { results : list ScoreResult.t }.

(** A [List[str]] handed to a constructor as the raw value of [tags]. *)
Definition as_raw (tags : list string) : raw_tags := RawSeq (map PyStr tags).

(** The body of the [for todo in request.todos] loop of [score], with the
    list [results] built so far. *)
Fixpoint score_loop (todos : list TodoPayload.t)
    (results : list ScoreResult.t) : M (list ScoreResult.t) :=
  match todos with
  | [] => ret results
  | todo :: todos' =>
      let features :=
        {| Scoring.title := TodoPayload.title todo;
           Scoring.completed := TodoPayload.completed todo;
           Scoring.created_at := TodoPayload.created_at todo;
           Scoring.due_date := TodoPayload.due_date todo;
           Scoring.tags := TodoPayload.tags todo |} in
      s <- Scoring.priority_score features ;;
      r <- lift (ScoreResult.init
                   (TodoPayload.title todo)
                   (TodoPayload.completed todo)
                   (TodoPayload.created_at todo)
                   (TodoPayload.due_date todo)
                   (as_raw (TodoPayload.tags todo))
                   s) ;;
      score_loop todos' (results ++ [r])%list
  end.

(** [score(request)], on [request.todos]. *)
Definition score (todos : list TodoPayload.t) : M ScoreResponse :=
  if (Z.of_nat (List.length todos) =? 0)%Z
  then raise (HTTPException 400)
  else
    results <- score_loop todos [] ;;
    ret {| results := results |}.

End Main.

(** ** The vocabulary of the statements

    Definitions that follow the words of the design document, to be compared
    with the functions above, and the two halves of [priority_score]. *)

Module Spec.

Import Py Num Datetime.
Local Open Scope Q_scope.
Local Open Scope string_scope.
Local Open Scope py_scope.

(** A keyword matches a title when it occurs in the lower-cased title. *)
Definition matches (keyword title : string) : bool :=
  Str.contains keyword (Str.lower title).

Definition keywords : list string :=
  ["urgent"; "asap"; "important"; "today"; "tomorrow"; "email"; "call"].

Definition weight_if (hit : bool) (w : Q) : Q := if hit then w else 0.

(** Each matching keyword counts once. *)
Definition keyword_sum (title : string) : Q :=
  weight_if (matches "urgent" title) 0.35
  + weight_if (matches "asap" title) 0.30
  + weight_if (matches "important" title) 0.25
  + weight_if (matches "today" title) 0.20
  + weight_if (matches "tomorrow" title) 0.15
  + weight_if (matches "email" title) 0.05
  + weight_if (matches "call" title) 0.05.

(** The whitespace-delimited word count of the title itself. *)
Definition word_count (title : string) : Z :=
  Z.of_nat (List.length (Str.split title)).

Definition is_long (title : string) : bool := (8 <=? word_count title)%Z.

Definition long_title (title : string) : Q := weight_if (is_long title) 0.05.

(** The tag as it is looked up: lower-cased and trimmed. *)
Definition tag_key (raw : string) : string := Str.strip (Str.lower raw).

Definition known_tag (raw : string) : bool :=
  String.eqb (tag_key raw) "work" || String.eqb (tag_key raw) "home"
  || String.eqb (tag_key raw) "bug" || String.eqb (tag_key raw) "feature".

Definition tag_weight (raw : string) : Q :=
  if String.eqb (tag_key raw) "work" then 0.10
  else if String.eqb (tag_key raw) "home" then 0.05
  else if String.eqb (tag_key raw) "bug" then 0.20
  else if String.eqb (tag_key raw) "feature" then 0.15
  else 0.03.

(** Every entry of the list contributes, a repeated one each time. *)
Fixpoint tag_sum (tags : list string) : Q :=
  match tags with
  | [] => 0
  | raw :: tags' => tag_weight raw + tag_sum tags'
  end.

(** Hours in a span of [delta] microseconds. *)
Definition hours (delta : Z) : Q := inject_Z delta / inject_Z 3600000000.

(** Hours elapsed at the instant [now] since [created]. *)
Definition elapsed_hours (now : Z) (created : datetime) : Q :=
  hours (now - wall created).

(** Hours remaining at the instant [now] until [due]. *)
Definition remaining_hours (now : Z) (due : datetime) : Q :=
  hours (wall due - now).

(** A normalized timestamp: aware, in UTC. *)
Definition normalized (value : datetime) : Prop := tzinfo value = Some utc.

Definition clamp01 (x : Q) : Q := Qmax 0 (Qmin 1 x).

Definition round3 (x : Q) : Q := py_round x 3.

(** A timestamp that is absent, naive, or whose UTC equivalent is a date of
    the years 1..9999. *)
Definition converts_to_utc (value : option datetime) : bool :=
  match value with
  | None => true
  | Some v =>
      match tzinfo v with
      | None => true
      | Some off => in_range (wall v - off)
      end
  end.

(** The running total of [priority_score] when it reaches the test of
    [completed]: the base score and the four bonuses, in the order of the
    source. *)
Definition score_before_completion (features : Scoring.TodoFeatures) : M Q :=
  let score := 0.35 in
  let score := score + Scoring._keyword_bonus (Scoring.title features) in
  let score := score + Scoring._tag_bonus (Scoring.tags features) in
  created <- lift (Scoring._normalize_dt (Scoring.created_at features)) ;;
  age <- Scoring._age_bonus created ;;
  let score := score + age in
  due <- lift (Scoring._normalize_dt (Scoring.due_date features)) ;;
  due_bonus <- Scoring._due_date_bonus due ;;
  ret (score + due_bonus).

(** The value [priority_score] returns from the running total [total]: the
    last lines of the source. *)
Definition finish (completed : bool) (total : Q) : Q :=
  py_max 0.0 (py_min 1.0
    (py_round (if completed then total - 0.6 else total) 3)).

(** A token as the tag normalizer is meant to produce it: trimmed and not
    empty. *)
Definition clean_tag (tag : string) : bool :=
  negb (Str.is_empty tag) && String.eqb (Str.strip tag) tag.

(** The features the handler builds from a record. *)
Definition features_of (todo : Main.TodoPayload.t) : Scoring.TodoFeatures :=
  {| Scoring.title := Main.TodoPayload.title todo;
     Scoring.completed := Main.TodoPayload.completed todo;
     Scoring.created_at := Main.TodoPayload.created_at todo;
     Scoring.due_date := Main.TodoPayload.due_date todo;
     Scoring.tags := Main.TodoPayload.tags todo |}.

(** The record [todo] with the score [s] attached and nothing else changed. *)
Definition echo (todo : Main.TodoPayload.t) (s : Q) : Main.ScoreResult.t :=
  {| Main.ScoreResult.title := Main.TodoPayload.title todo;
     Main.ScoreResult.completed := Main.TodoPayload.completed todo;
     Main.ScoreResult.created_at := Main.TodoPayload.created_at todo;
     Main.ScoreResult.due_date := Main.TodoPayload.due_date todo;
     Main.ScoreResult.tags := Main.TodoPayload.tags todo;
     Main.ScoreResult.priority_score := s |}.

(** A record as the validation layer hands it over: the field constraints
    hold, its timestamps convert to UTC, and its tags are clean tokens. *)
Definition accepted (todo : Main.TodoPayload.t) : bool :=
  Main.check_fields (Main.TodoPayload.title todo) (Main.TodoPayload.tags todo)
  && converts_to_utc (Main.TodoPayload.created_at todo)
  && converts_to_utc (Main.TodoPayload.due_date todo)
  && forallb clean_tag (Main.TodoPayload.tags todo).

(** [r] is [todo] with a score that [priority_score] computes for it on some
    state of the clock [c]. *)
Definition scored_echo (c : Clock) (todo : Main.TodoPayload.t)
    (r : Main.ScoreResult.t) : Prop :=
  r = echo todo (Main.ScoreResult.priority_score r)
  /\ exists n c',
       Scoring.priority_score (features_of todo)
         {| readings := readings c; reads := n |}
       = Ok (Main.ScoreResult.priority_score r, c').

End Spec.

(** ** Inputs used below *)

Module Examples.

Import Py Datetime.
Local Open Scope string_scope.

(** One hour, one day, in microseconds. *)
Definition hour : Z := 3600 * 1000000.
Definition day : Z := 24 * hour.

(** 2024-01-01T00:00:00, 738885 days after 0001-01-01T00:00:00. *)
Definition new_year_2024 : Z := 738885 * day.

(** 0001-01-01T00:00:00+01:00 *)
Definition first_instant_plus_one : datetime :=
  {| wall := 0; tzinfo := Some hour |}.

Definition far_past : Scoring.TodoFeatures :=
  {| Scoring.title := "plan trip";
     Scoring.completed := false;
     Scoring.created_at := Some first_instant_plus_one;
     Scoring.due_date := None;
     Scoring.tags := [] |}.

(** End-to-end example 2 of the design document. *)
Definition urgent_call : Scoring.TodoFeatures :=
  {| Scoring.title := "URGENT: call client today";
     Scoring.completed := false;
     Scoring.created_at := None;
     Scoring.due_date := None;
     Scoring.tags := ["bug"] |}.

(** The same item, created two days before 2024-01-01 at 02:00+02:00, due
    one day after it (naive), and completed. *)
Definition urgent_call_done : Scoring.TodoFeatures :=
  {| Scoring.title := "URGENT: call client today";
     Scoring.completed := true;
     Scoring.created_at :=
       Some {| wall := new_year_2024 - 2 * day + 2 * hour;
               tzinfo := Some (2 * hour) |};
     Scoring.due_date :=
       Some {| wall := new_year_2024 + day; tzinfo := None |};
     Scoring.tags := ["bug"] |}.

(** 2024-01-02T00:00:00+00:00 *)
Definition second_of_january : datetime :=
  {| wall := new_year_2024 + day; tzinfo := Some utc |}.

Definition plain_note : Main.TodoPayload.t :=
  {| Main.TodoPayload.title := "just a note";
     Main.TodoPayload.completed := false;
     Main.TodoPayload.created_at := None;
     Main.TodoPayload.due_date := None;
     Main.TodoPayload.tags := ["home"; "Work"] |}.

(** The record that [TodoPayload(title="plan trip", tags=["  "])] builds. *)
Definition blank_tag : Main.TodoPayload.t :=
  {| Main.TodoPayload.title := "plan trip";
     Main.TodoPayload.completed := false;
     Main.TodoPayload.created_at := None;
     Main.TodoPayload.due_date := None;
     Main.TodoPayload.tags := [""] |}.

Definition far_past_record : Main.TodoPayload.t :=
  {| Main.TodoPayload.title := "plan trip";
     Main.TodoPayload.completed := false;
     Main.TodoPayload.created_at := Some first_instant_plus_one;
     Main.TodoPayload.due_date := None;
     Main.TodoPayload.tags := [] |}.

End Examples.

(** ** Further vocabulary for the scorer and the handler *)

Module Terms.

Import Py Num Datetime.
Local Open Scope string_scope.

(** The instant a timestamp denotes, in microseconds of UTC; a naive value
    is read as UTC, which is how [_normalize_dt] reads it. *)
Definition instant (v : datetime) : Z :=
  wall v - match tzinfo v with Some off => off | None => utc end.

(** The clock after [n] more readings. *)
Definition ticks (n : nat) (c : Clock) : Clock :=
  {| readings := readings c; reads := (n + reads c)%nat |}.

Definition present {A : Type} (o : option A) : nat :=
  match o with Some _ => 1%nat | None => 0%nat end.

Definition with_completed (f : Scoring.TodoFeatures) (b : bool)
    : Scoring.TodoFeatures :=
  {| Scoring.title := Scoring.title f;
     Scoring.completed := b;
     Scoring.created_at := Scoring.created_at f;
     Scoring.due_date := Scoring.due_date f;
     Scoring.tags := Scoring.tags f |}.

Definition with_tags (f : Scoring.TodoFeatures) (tags : list string)
    : Scoring.TodoFeatures :=
  {| Scoring.title := Scoring.title f;
     Scoring.completed := Scoring.completed f;
     Scoring.created_at := Scoring.created_at f;
     Scoring.due_date := Scoring.due_date f;
     Scoring.tags := tags |}.

(** The item with its title in lower case and every tag in lower case and
    trimmed. *)
Definition folded (f : Scoring.TodoFeatures) : Scoring.TodoFeatures :=
  {| Scoring.title := Str.lower (Scoring.title f);
     Scoring.completed := Scoring.completed f;
     Scoring.created_at := Scoring.created_at f;
     Scoring.due_date := Scoring.due_date f;
     Scoring.tags := map Spec.tag_key (Scoring.tags f) |}.

(** A text that does not start with a blank. *)
Definition starts_clean (s : string) : bool :=
  match s with
  | EmptyString => true
  | String c _ => negb (Str.isspace c)
  end.

(** The weight of a keyword in [KEYWORD_WEIGHTS], 0 for any other text. *)
Definition keyword_weight (keyword : string) : Q :=
  Scoring.dict_get Scoring.KEYWORD_WEIGHTS keyword 0.

(** Two runs of a scorer end alike: the same exception, or equal scores on
    the same state of the clock. *)
Definition same_outcome (r1 r2 : result (Q * Clock)) : Prop :=
  match r1, r2 with
  | Ok (s1, c1), Ok (s2, c2) => s1 == s2 /\ c1 = c2
  | Raise e1, Raise e2 => e1 = e2
  | _, _ => False
  end.

(** What the validator of [tags] makes of a list of strings. *)
Definition renormalized (tags : list string) : list string :=
  Main.normalize_tags (Main.as_raw tags).

(** The record [todo] with the score [s] attached and its tags passed
    through the validator once more. *)
Definition rescored (todo : Main.TodoPayload.t) (s : Q) : Main.ScoreResult.t :=
  {| Main.ScoreResult.title := Main.TodoPayload.title todo;
     Main.ScoreResult.completed := Main.TodoPayload.completed todo;
     Main.ScoreResult.created_at := Main.TodoPayload.created_at todo;
     Main.ScoreResult.due_date := Main.TodoPayload.due_date todo;
     Main.ScoreResult.tags := renormalized (Main.TodoPayload.tags todo);
     Main.ScoreResult.priority_score := s |}.

(** A record whose declared field constraints hold and whose timestamps
    convert to UTC; its tags are any strings. *)
Definition admissible (todo : Main.TodoPayload.t) : bool :=
  Main.check_fields (Main.TodoPayload.title todo) (Main.TodoPayload.tags todo)
  && Spec.converts_to_utc (Main.TodoPayload.created_at todo)
  && Spec.converts_to_utc (Main.TodoPayload.due_date todo).

Definition convertible (todo : Main.TodoPayload.t) : bool :=
  Spec.converts_to_utc (Main.TodoPayload.created_at todo)
  && Spec.converts_to_utc (Main.TodoPayload.due_date todo).

Definition fields_ok (todo : Main.TodoPayload.t) : bool :=
  Main.check_fields (Main.TodoPayload.title todo) (Main.TodoPayload.tags todo).

(** [r] is [todo] with re-validated tags and a score that [priority_score]
    computes for [todo] itself on some state of the clock [c]. *)
Definition scored_record (c : Clock) (todo : Main.TodoPayload.t)
    (r : Main.ScoreResult.t) : Prop :=
  r = rescored todo (Main.ScoreResult.priority_score r)
  /\ exists n c',
       Scoring.priority_score (Spec.features_of todo)
         {| readings := readings c; reads := n |}
       = Ok (Main.ScoreResult.priority_score r, c').

End Terms.

(** ** More inputs *)

Module MoreExamples.

Import Py Datetime Examples.
Local Open Scope string_scope.

(** 2024-01-02T09:00:00+02:00 *)
Definition first_working_day : datetime :=
  {| wall := new_year_2024 + day + 9 * hour; tzinfo := Some (2 * hour) |}.

(** The record that [TodoPayload(title="call mum", tags=" home ")] builds. *)
Definition untrimmed_tag : Main.TodoPayload.t :=
  {| Main.TodoPayload.title := "call mum";
     Main.TodoPayload.completed := false;
     Main.TodoPayload.created_at := None;
     Main.TodoPayload.due_date := Some first_working_day;
     Main.TodoPayload.tags := [" home "] |}.

End MoreExamples.


(** ** [random.random] and [random.uniform] *)

Module Random.

Local Open Scope Q_scope.

(** The generator: [bits n] is the [n]-th number it gives, of which
    [random()] uses 53 bits. *)
Record Rng : Type := { bits : nat -> Z; drawn : nat }.

Definition next (g : Rng) : Rng :=
  {| bits := bits g; drawn := S (drawn g) |}.

(** [random.random()]: a multiple of 2^-53 in [0, 1). *)
Definition random (g : Rng) : Q * Rng :=
  (inject_Z (bits g (drawn g) mod 2 ^ 53) / inject_Z (2 ^ 53), next g).

(** [random.uniform(a, b)] is [a + (b - a) * random()]. *)
Definition uniform (a b : Q) (g : Rng) : Q * Rng :=
  let (r, g') := random g in (a + (b - a) * r, g').

(** A generator that gives the same number every time. *)
Definition constant_rng (k : Z) : Rng := {| bits := fun _ => k; drawn := O |}.

End Random.

(** ** airflow/dags/todo_ml_pipeline.py

    The three tasks of the DAG.  They talk to Postgres, to MLflow, to the
    environment, the clock and the random generator: a task is a function of
    the [World], which keeps the list of the calls made to Postgres and
    MLflow, and it leaves the world it has reached also when it raises.
    What [print] writes is not part of the model.  The calls to MLflow, and
    [close] on a cursor or a connection, are taken to succeed. *)

Module Pipeline.

Import Num Random Datetime.
Local Open Scope Q_scope.
Local Open Scope string_scope.

Inductive error : Type :=
| KeyError (key : string)
| ValueError
| DatabaseError (pgerror : string).

Inductive outcome (A : Type) : Type :=
| Return (a : A)
| Raised (e : error).

Arguments Return {A} a.
Arguments Raised {A} e.

(** A row of [todos].  The code tests [tags], [created_at] and [updated_at]
    before it uses them, so these may be NULL; it uses the other columns as
    they come. *)
Record Row : Type := {
  row_id : Z;
  row_title : string;
  row_completed : bool;
  row_tags : option (list string);
  row_duration_minutes : Z;
  row_priority_score : Q;
  row_created_at : option datetime;
  row_updated_at : option datetime
}.

(** What Postgres does to the calls of one task run: each of [connect],
    [cursor] and [execute] may raise, and [fetchall] gives rows or
    raises. *)
Record Database : Type := {
  on_connect : option error;
  on_cursor : option error;
  on_execute : option error;
  on_fetchall : outcome (list Row)
}.

Record DbConfig : Type := {
  host : string;
  port : Z;
  user : string;
  password : string;
  database : string
}.

Inductive RunStatus : Type := FINISHED | FAILED.

Inductive ParamValue : Type :=
| PStr (s : string)
| PNum (x : Q).

(** The calls made to Postgres and to MLflow. *)
Inductive Call : Type :=
| Connect (config : DbConfig) (sslmode : string) (connect_timeout : Z)
| Cursor
| Execute (query : string)
| Fetchall
| CursorClose
| ConnectionClose
| SetTrackingUri (uri : string)
| SetExperiment (name : string)
| StartRun (run_name : string)
| LogParam (key : string) (value : ParamValue)
| LogMetric (key : string) (value : Q)
| SetTag (key value : string)
| EndRun (status : RunStatus).

Record World : Type := {
  environ : string -> option string;
  utc_clock : nat -> Z;
  clock_reads : nat;
  rng : Rng;
  postgres : Database;
  run_info : string * string;
  calls : list Call
}.

Definition W (A : Type) : Type := World -> outcome A * World.

Definition ret {A} (a : A) : W A := fun w => (Return a, w).

Definition bind {A B} (m : W A) (k : A -> W B) : W B :=
  fun w => match m w with
           | (Return a, w') => k a w'
           | (Raised e, w') => (Raised e, w')
           end.

Definition raise {A} (e : error) : W A := fun w => (Raised e, w).

(** [try: body finally: cleanup] *)
Definition try_finally {A} (body : W A) (cleanup : W unit) : W A :=
  fun w => match body w with
           | (r, w') =>
               match cleanup w' with
               | (Return _, w'') => (r, w'')
               | (Raised e, w'') => (Raised e, w'')
               end
           end.

Definition call (c : Call) : W unit :=
  fun w =>
    (Return tt,
     {| environ := environ w; utc_clock := utc_clock w;
        clock_reads := clock_reads w; rng := rng w; postgres := postgres w;
        run_info := run_info w; calls := (calls w ++ [c])%list |}).

(** A call that the database may refuse. *)
Definition db_call (c : Call) (refusal : Database -> option error) : W unit :=
  fun w => match call c w with
           | (_, w') =>
               match refusal (postgres w) with
               | Some e => (Raised e, w')
               | None => (Return tt, w')
               end
           end.

(** [os.getenv(name, default)] *)
Definition getenv (name default : string) : W string :=
  fun w => (Return match environ w name with
                   | Some v => v
                   | None => default
                   end, w).

(** [datetime.utcnow()]: a naive reading of the clock. *)
Definition utcnow : W datetime :=
  fun w =>
    (Return {| wall := utc_clock w (clock_reads w); tzinfo := None |},
     {| environ := environ w; utc_clock := utc_clock w;
        clock_reads := S (clock_reads w); rng := rng w;
        postgres := postgres w; run_info := run_info w;
        calls := calls w |}).

(** [random.uniform(a, b)] on the generator of the world. *)
Definition random_uniform (a b : Q) : W Q :=
  fun w =>
    let (u, g) := uniform a b (rng w) in
    (Return u,
     {| environ := environ w; utc_clock := utc_clock w;
        clock_reads := clock_reads w; rng := g; postgres := postgres w;
        run_info := run_info w; calls := calls w |}).

(** [d[key]] on a dict given by its items. *)
Fixpoint subscript (d : list (string * Q)) (key : string) : outcome Q :=
  match d with
  | [] => Raised (KeyError key)
  | (k, v) :: d' => if String.eqb k key then Return v else subscript d' key
  end.

Definition lookup (d : list (string * Q)) (key : string) : W Q :=
  fun w => (subscript d key, w).

(** The dicts that the tasks hand on. *)
Record Task : Type := {
  id : Z;
  title : string;
  completed : bool;
  tags : list string;
  duration_minutes : Z;
  priority_score : Q;
  created_at : option string;
  updated_at : option string
}.

Record Extraction : Type := {
  tasks : list Task;
  total_count : Z;
  completed_count : Z;
  extraction_timestamp : string
}.

Record Feature : Type := {
  title_length : Z;
  has_tags : bool;
  tag_count : Z;
  feature_duration_minutes : Z;
  feature_priority_score : Q;
  feature_completed : bool
}.

Record Dataset : Type := {
  dataset_size : Z;
  features : list Feature;
  statistics : list (string * Q)
}.

Record ModelWeights : Type := {
  keyword_bonus : Q;
  tag_bonus : Q;
  duration_penalty : Q
}.

Record ModelRules : Type := {
  description : string;
  weights : ModelWeights;
  training_samples_meta : Z;
  dataset_statistics : list (string * Q)
}.

Record TrainingResult : Type := {
  run_id : string;
  experiment_id : string;
  metric_mae : Q;
  metric_f1 : Q;
  model_params : ModelWeights;
  training_samples : Z;
  mlflow_uri : string
}.

End Pipeline.

Declare Scope pipeline_scope.
Delimit Scope pipeline_scope with pipeline.
Notation "x <- m ;; k" := (Pipeline.bind m (fun x => k))
  (at level 61, m at next level, right associativity) : pipeline_scope.
Notation "m ;;; k" := (Pipeline.bind m (fun _ => k))
  (at level 61, right associativity) : pipeline_scope.

Module Dag.

Import Num Random Datetime Pipeline.
Local Open Scope Q_scope.
Local Open Scope string_scope.
Local Open Scope pipeline_scope.

Section Tasks.

(** Library functions that only produce text: [datetime.isoformat],
    [datetime.strftime], [json.dumps] of the model rules, and [int] of a
    string ([None] when it raises [ValueError]). *)
Variable isoformat : datetime -> string.
Variable strftime : datetime -> string -> string.
Variable json_dumps : ModelRules -> string.
Variable int_of_str : string -> option Z.

Definition query : string :=
  "
                SELECT 
                    id, 
                    title, 
                    completed, 
                    tags, 
                    duration_minutes, 
                    priority_score,
                    created_at,
                    updated_at
                FROM todos
                ORDER BY created_at DESC
            ".

(** The dict built from one row in the loop of [extract_tasks]. *)
Definition task_of_row (row : Row) : Task :=
  {| id := row_id row;
     title := row_title row;
     completed := row_completed row;
     tags := match row_tags row with
             | Some (tag :: more) => tag :: more
             | _ => []
             end;
     duration_minutes := row_duration_minutes row;
     priority_score := row_priority_score row;
     created_at := match row_created_at row with
                   | Some d => Some (isoformat d)
                   | None => None
                   end;
     updated_at := match row_updated_at row with
                   | Some d => Some (isoformat d)
                   | None => None
                   end |}.

(** [sum(1 for t in tasks if t["completed"])] *)
Definition count_completed (tasks : list Task) : Z :=
  fold_left (fun n t => if completed t then n + 1 else n)%Z tasks 0%Z.

(** The body of the [try] of [extract_tasks]; [connected] records whether
    [conn] has been assigned. *)
Definition extract_body (config : DbConfig) : W Extraction :=
  db_call (Connect config "prefer" 10) on_connect ;;;
  db_call Cursor on_cursor ;;;
  db_call (Execute query) on_execute ;;;
  call Fetchall ;;;
  rows <- (fun w => (on_fetchall (postgres w), w)) ;;
  let tasks :=
    fold_left (fun tasks row => (tasks ++ [task_of_row row])%list) rows [] in
  call CursorClose ;;;
  now <- utcnow ;;
  ret {| tasks := tasks;
         total_count := Z.of_nat (List.length tasks);
         completed_count := count_completed tasks;
         extraction_timestamp := isoformat now |}.

(** The [finally] of [extract_tasks]: [conn] is set once [connect] has
    returned. *)
Definition close_if_connected : W unit :=
  fun w => match on_connect (postgres w) with
           | None => call ConnectionClose w
           | Some _ => (Return tt, w)
           end.

Definition extract_tasks : W Extraction :=
  host <- getenv "POSTGRES_HOST" "postgres" ;;
  port_text <- getenv "POSTGRES_PORT" "5432" ;;
  port <- match int_of_str port_text with
          | Some p => ret p
          | None => raise ValueError
          end ;;
  user <- getenv "POSTGRES_USER" "todo" ;;
  password <- getenv "POSTGRES_PASSWORD" "todo" ;;
  database <- getenv "POSTGRES_DB" "tododb" ;;
  let db_config :=
    {| host := host; port := port; user := user; password := password;
       database := database |} in
  try_finally (extract_body db_config) close_if_connected.

(** [sum(...) / total] of a column of numbers. *)
Definition average (xs : list Q) (total : Z) : Q :=
  if (0 <? total)%Z
  then fold_left Qplus xs 0 / inject_Z total
  else 0.

Definition feature_of_task (task : Task) : Feature :=
  {| title_length := Str.len (title task);
     has_tags := (0 <? Z.of_nat (List.length (tags task)))%Z;
     tag_count := Z.of_nat (List.length (tags task));
     feature_duration_minutes := duration_minutes task;
     feature_priority_score := priority_score task;
     feature_completed := completed task |}.

Definition prepare_dataset (extraction_result : Extraction) : Dataset :=
  let tasks := tasks extraction_result in
  match tasks with
  | [] =>
      {| dataset_size := 0;
         features := [];
         statistics := [("total", 0); ("completed", 0); ("pending", 0)] |}
  | _ =>
      let total := Z.of_nat (List.length tasks) in
      let completed := count_completed tasks in
      let pending := (total - completed)%Z in
      let avg_duration :=
        average (map (fun t => inject_Z (duration_minutes t)) tasks) total in
      let avg_priority := average (map priority_score tasks) total in
      let features :=
        fold_left (fun features task =>
                     (features ++ [feature_of_task task])%list)
          tasks [] in
      {| dataset_size := total;
         features := features;
         statistics :=
           [("total", inject_Z total);
            ("completed", inject_Z completed);
            ("pending", inject_Z pending);
            ("avg_duration", py_round avg_duration 2);
            ("avg_priority", py_round avg_priority 3)] |}
  end.

(** The weights that [train_model] derives from the dataset. *)
Definition choose_weights (dataset_size : Z) (statistics : list (string * Q))
    : W ModelWeights :=
  if (0 <? dataset_size)%Z
  then
    avg_duration <- lookup statistics "avg_duration" ;;
    duration_factor <-
      (if Qltb 0 avg_duration
       then avg <- lookup statistics "avg_duration" ;;
            ret (py_min (avg / 60.0) 1.0)
       else ret 0.5) ;;
    priority_factor <- lookup statistics "avg_priority" ;;
    ret {| keyword_bonus := py_round (0.2 + duration_factor * 0.3) 2;
           tag_bonus := py_round (0.05 + priority_factor * 0.15) 2;
           duration_penalty := py_round (0.05 + duration_factor * 0.1) 2 |}
  else
    ret {| keyword_bonus := 0.35; tag_bonus := 0.10;
           duration_penalty := 0.08 |}.

(** The body of the [with mlflow.start_run(...) as run] of [train_model]. *)
Definition run_body (dataset_size : Z) (statistics : list (string * Q))
    (w8s : ModelWeights) (mae f1_score : Q) (model_rules : ModelRules)
    : W (string * string) :=
  call (LogParam "model_type" (PStr "rule_based")) ;;;
  call (LogParam "training_samples" (PNum (inject_Z dataset_size))) ;;;
  call (LogParam "keyword_bonus" (PNum (keyword_bonus w8s))) ;;;
  call (LogParam "tag_bonus" (PNum (tag_bonus w8s))) ;;;
  call (LogParam "duration_penalty" (PNum (duration_penalty w8s))) ;;;
  call (LogMetric "mae" mae) ;;;
  call (LogMetric "f1" f1_score) ;;;
  call (LogMetric "dataset_size" (inject_Z dataset_size)) ;;;
  completed_ratio <-
    (if (0 <? dataset_size)%Z
     then done <- lookup statistics "completed" ;;
          ret (done / inject_Z dataset_size)
     else ret 0) ;;
  call (LogMetric "completed_ratio" completed_ratio) ;;;
  avg_duration <- lookup statistics "avg_duration" ;;
  call (LogMetric "avg_duration" avg_duration) ;;;
  avg_priority <- lookup statistics "avg_priority" ;;
  call (LogMetric "avg_priority" avg_priority) ;;;
  call (LogParam "model_rules_json" (PStr (json_dumps model_rules))) ;;;
  call (SetTag "pipeline" "airflow") ;;;
  call (SetTag "dag_id" "todo_ml_pipeline") ;;;
  now <- utcnow ;;
  call (SetTag "execution_date" (isoformat now)) ;;;
  fun w => (Return (run_info w), w).

(** [with mlflow.start_run(run_name=...) as run: body]: the run is ended
    as finished when the body returns and as failed when it raises, and
    the exception goes on. *)
Definition with_run {A} (run_name : string) (body : W A) : W A :=
  call (StartRun run_name) ;;;
  fun w => match body w with
           | (Return a, w') =>
               match call (EndRun FINISHED) w' with
               | (_, w'') => (Return a, w'')
               end
           | (Raised e, w') =>
               match call (EndRun FAILED) w' with
               | (_, w'') => (Raised e, w'')
               end
           end.

Definition train_model (dataset : Dataset) : W TrainingResult :=
  tracking_uri <- getenv "MLFLOW_TRACKING_URI" "http://mlflow:5000" ;;
  let experiment_name := "todo-priority-model" in
  call (SetTrackingUri tracking_uri) ;;;
  call (SetExperiment experiment_name) ;;;
  let dataset_size := dataset_size dataset in
  let statistics := statistics dataset in
  w8s <- choose_weights dataset_size statistics ;;
  u <- random_uniform 0.05 0.25 ;;
  let mae := py_round u 3 in
  let f1_score := py_round (1 - mae) 3 in
  let model_rules :=
    {| description := "Rule-based priority model for todo tasks";
       weights := w8s;
       training_samples_meta := dataset_size;
       dataset_statistics := statistics |} in
  now <- utcnow ;;
  ids <- with_run ("priority-model-" ++ strftime now "%Y%m%d-%H%M%S")
           (run_body dataset_size statistics w8s mae f1_score model_rules) ;;
  ret {| run_id := fst ids;
         experiment_id := snd ids;
         metric_mae := mae;
         metric_f1 := f1_score;
         model_params := weights model_rules;
         training_samples := dataset_size;
         mlflow_uri := tracking_uri |}.

(** The DAG: [train_model(prepare_dataset(extract_tasks()))]. *)
Definition todo_ml_pipeline : W TrainingResult :=
  extraction <- extract_tasks ;;
  let dataset := prepare_dataset extraction in
  train_model dataset.

End Tasks.

End Dag.

(** ** Vocabulary for the pipeline *)

Module DagTerms.

Import Pipeline.
Local Open Scope string_scope.

(** The text that [extract_tasks] reads as the port. *)
Definition port_text (w : World) : string :=
  match environ w "POSTGRES_PORT" with Some v => v | None => "5432" end.

(** The configuration that [extract_tasks] reads from the environment of
    [w], with the port [p]. *)
Definition config_of (w : World) (p : Z) : DbConfig :=
  let env name default :=
    match environ w name with Some v => v | None => default end in
  {| host := env "POSTGRES_HOST" "postgres";
     port := p;
     user := env "POSTGRES_USER" "todo";
     password := env "POSTGRES_PASSWORD" "todo";
     database := env "POSTGRES_DB" "tododb" |}.

End DagTerms.

(** ** Inputs for the pipeline *)

Module DagExamples.

Import Random Datetime Pipeline Examples.
Local Open Scope string_scope.

(** Stand-ins for the library functions that produce text. *)
Definition iso (d : datetime) : string := "2024-01-01T00:00:00".
Definition fmt (d : datetime) (format : string) : string := "20240101-000000".
Definition dumps (rules : ModelRules) : string := "{}".
Definition to_int (s : string) : option Z :=
  if String.eqb s "5432" then Some 5432%Z else None.

Definition row_done : Row :=
  {| row_id := 1; row_title := "pay rent"; row_completed := true;
     row_tags := None; row_duration_minutes := 30;
     row_priority_score := 0.75;
     row_created_at := Some {| wall := new_year_2024; tzinfo := None |};
     row_updated_at := None |}.

Definition row_open : Row :=
  {| row_id := 2; row_title := "call mum"; row_completed := false;
     row_tags := Some ["home"]; row_duration_minutes := 90;
     row_priority_score := 0.4;
     row_created_at := Some {| wall := new_year_2024; tzinfo := None |};
     row_updated_at := Some {| wall := new_year_2024 + hour; tzinfo := None |} |}.

Definition two_tasks : Extraction :=
  {| tasks := [Dag.task_of_row iso row_done; Dag.task_of_row iso row_open];
     total_count := 2;
     completed_count := 1;
     extraction_timestamp := "2024-01-01T00:00:00" |}.

Definition no_tasks : Extraction :=
  {| tasks := [];
     total_count := 0;
     completed_count := 0;
     extraction_timestamp := "2024-01-01T00:00:00" |}.

(** A database that answers every call, with the given rows. *)
Definition healthy (rows : list Row) : Database :=
  {| on_connect := None; on_cursor := None; on_execute := None;
     on_fetchall := Return rows |}.

(** A database that accepts the connection and refuses the query. *)
Definition refusing_query : Database :=
  {| on_connect := None; on_cursor := None;
     on_execute := Some (DatabaseError "relation todos does not exist");
     on_fetchall := Return [] |}.

(** A database that accepts the connection and gives no cursor. *)
Definition refusing_cursor : Database :=
  {| on_connect := None;
     on_cursor := Some (DatabaseError "connection already closed");
     on_execute := None; on_fetchall := Return [] |}.

(** A database that cannot be reached. *)
Definition unreachable : Database :=
  {| on_connect := Some (DatabaseError "connection refused");
     on_cursor := None; on_execute := None; on_fetchall := Return [] |}.

(** A world with an empty environment, a stopped clock and a generator
    that always gives 0. *)
Definition world_with (db : Database) : World :=
  {| environ := fun _ => None;
     utc_clock := fun _ => new_year_2024;
     clock_reads := 0;
     rng := constant_rng 0;
     postgres := db;
     run_info := ("run-1", "experiment-1");
     calls := [] |}.

End DagExamples.

(** ** scoring.py on binary64

    The same functions with Python's own arithmetic: a [float] is a binary64
    number, [+], [-], [/] and the comparisons are those of IEEE 754, an
    integer divided by an integer and a decimal rounded by [round] are the
    nearest binary64 numbers.  This embedding settles what depends on the
    last bit of a score. *)

Module Binary64.

Import PrimFloat.
Import Py Datetime.
Local Open Scope string_scope.
Local Open Scope py_scope.
Local Open Scope float_scope.

Definition Z2SF (z : Z) : SpecFloat.spec_float :=
  match z with
  | Z0 => SpecFloat.S754_zero false
  | Zpos p => SpecFloat.S754_finite false p 0
  | Zneg p => SpecFloat.S754_finite true p 0
  end.

(** [a / b] on two integers: the quotient, rounded once. *)
Definition div_Z (a b : Z) : float :=
  FloatOps.SF2Prim
    (SpecFloat.SFdiv FloatOps.prec FloatOps.emax (Z2SF a) (Z2SF b)).

Definition pow2 (e : Z) : Q :=
  match e with
  | Z0 => 1%Q
  | Zpos _ => inject_Z (2 ^ e)
  | Zneg _ => (1 / inject_Z (2 ^ (- e)))%Q
  end.

(** [round(x, ndigits)]: [x] times [10 ^ ndigits] is rounded to the nearest
    integer [n], ties to even, on the exact value of [x]; the result is the
    binary64 number nearest to [n / 10 ^ ndigits].  Zeros, infinities and
    NaN are returned as they are. *)
Definition py_round (x : float) (ndigits : nat) : float :=
  match FloatOps.Prim2SF x with
  | SpecFloat.S754_finite s m e =>
      let value :=
        (inject_Z (if s then Zneg m else Zpos m) * pow2 e)%Q in
      let p := (10 ^ Z.of_nat ndigits)%Z in
      let n := Num.round_half_even (value * inject_Z p)%Q in
      if (n =? 0)%Z then (if s then (-0)%float else 0%float)
      else div_Z n p
  | _ => x
  end.

(** [min(a, b)] and [max(a, b)] *)
Definition py_min (a b : float) : float := if b <? a then b else a.

Definition py_max (a b : float) : float := if a <? b then b else a.

Definition KEYWORD_WEIGHTS : list (string * float) :=
  [ ("urgent", 0.35);
    ("asap", 0.3);
    ("important", 0.25);
    ("today", 0.2);
    ("tomorrow", 0.15);
    ("email", 0.05);
    ("call", 0.05) ].

Definition TAG_WEIGHTS : list (string * float) :=
  [ ("work", 0.1);
    ("home", 0.05);
    ("bug", 0.2);
    ("feature", 0.15) ].

Fixpoint dict_get (d : list (string * float)) (key : string) (default : float)
    : float :=
  match d with
  | [] => default
  | (k, v) :: d' => if String.eqb k key then v else dict_get d' key default
  end.

Definition _keyword_bonus (title : string) : float :=
  let title_lc := Str.lower title in
  let bonus :=
    fold_left
      (fun bonus kw => if Str.contains (fst kw) title_lc
                       then bonus + snd kw else bonus)
      KEYWORD_WEIGHTS 0.0 in
  let bonus :=
    if (8 <=? Z.of_nat (List.length (Str.split title_lc)))%Z
    then bonus + 0.05 else bonus in
  py_min bonus 0.45.

Definition _tag_bonus (tags : list string) : float :=
  match tags with
  | [] => 0.0
  | _ =>
      let bonus :=
        fold_left
          (fun bonus raw =>
             let tag := Str.strip (Str.lower raw) in
             bonus + dict_get TAG_WEIGHTS tag 0.03)
          tags 0.0 in
      py_min bonus 0.25
  end.

(** [delta.total_seconds()]: microseconds over 10 ** 6, as integers. *)
Definition total_seconds (delta : timedelta) : float := div_Z delta 1000000.

Definition _age_bonus (created_at : option datetime) : M float :=
  match created_at with
  | None => ret 0.0
  | Some created_at =>
      now <- now_utc ;;
      delta <- lift (sub now created_at) ;;
      let age_hours := total_seconds delta / 3600 in
      if age_hours <=? 24 then ret 0.05
      else if age_hours <=? 72 then ret 0.1
      else if age_hours <=? 168 then ret 0.15
      else ret 0.2
  end.

Definition _due_date_bonus (due_date : option datetime) : M float :=
  match due_date with
  | None => ret 0.0
  | Some due_date =>
      now <- now_utc ;;
      delta <- lift (sub due_date now) ;;
      let delta_hours := total_seconds delta / 3600 in
      if delta_hours <=? 0 then ret 0.3
      else if delta_hours <=? 24 then ret 0.25
      else if delta_hours <=? 72 then ret 0.2
      else if delta_hours <=? 168 then ret 0.1
      else ret 0.05
  end.

(** The running total of [priority_score] when it reaches the test of
    [completed]. *)
Definition score_before_completion (features : Scoring.TodoFeatures)
    : M float :=
  let score := 0.35 in
  let score := score + _keyword_bonus (Scoring.title features) in
  let score := score + _tag_bonus (Scoring.tags features) in
  created <- lift (Scoring._normalize_dt (Scoring.created_at features)) ;;
  age <- _age_bonus created ;;
  let score := score + age in
  due <- lift (Scoring._normalize_dt (Scoring.due_date features)) ;;
  due_bonus <- _due_date_bonus due ;;
  ret (score + due_bonus).

Definition priority_score (features : Scoring.TodoFeatures) : M float :=
  let score := 0.35 in
  let score := score + _keyword_bonus (Scoring.title features) in
  let score := score + _tag_bonus (Scoring.tags features) in
  created <- lift (Scoring._normalize_dt (Scoring.created_at features)) ;;
  age <- _age_bonus created ;;
  let score := score + age in
  due <- lift (Scoring._normalize_dt (Scoring.due_date features)) ;;
  due_bonus <- _due_date_bonus due ;;
  let score := score + due_bonus in
  let score := if Scoring.completed features then score - 0.6 else score in
  ret (py_max 0.0 (py_min 1.0 (py_round score 3))).

(** The formula of the design document for a completed item:
    [max(0, round(total, 3) - 0.60)] clamped to [0, 1]. *)
Definition completed_score (before_completion : float) : float :=
  py_max 0.0 (py_min 1.0 (py_max 0.0 (py_round before_completion 3 - 0.6))).

(** A completed item whose title is one keyword. *)
Definition urgent_done : Scoring.TodoFeatures :=
  {| Scoring.title := "urgent";
     Scoring.completed := true;
     Scoring.created_at := None;
     Scoring.due_date := None;
     Scoring.tags := [] |}.

End Binary64.
(** ** Facts about [min], [max] and [round] *)

Module NumFacts.

Import Num.
Local Open Scope Q_scope.

Lemma Qltb_lt (a b : Q) : Qltb a b = true <-> a < b.
Proof.
  unfold Qltb. rewrite negb_true_iff.
  split; intro H.
  - apply Qnot_le_lt. intro Hle.
    apply Qle_bool_iff in Hle. congruence.
  - destruct (Qle_bool b a) eqn:E; trivial.
    apply Qle_bool_iff in E. apply Qle_not_lt in E. contradiction.
Qed.

Lemma Qltb_ge (a b : Q) : Qltb a b = false <-> b <= a.
Proof.
  unfold Qltb. rewrite negb_false_iff. apply Qle_bool_iff.
Qed.

Lemma py_min_Qmin (a b : Q) : py_min a b == Qmin a b.
Proof.
  unfold py_min. destruct (Qltb b a) eqn:E.
  - apply Qltb_lt in E. symmetry. apply Q.min_r. apply Qlt_le_weak, E.
  - apply Qltb_ge in E. symmetry. apply Q.min_l, E.
Qed.

Lemma py_max_Qmax (a b : Q) : py_max a b == Qmax a b.
Proof.
  unfold py_max. destruct (Qltb a b) eqn:E.
  - apply Qltb_lt in E. symmetry. apply Q.max_r. apply Qlt_le_weak, E.
  - apply Qltb_ge in E. symmetry. apply Q.max_l, E.
Qed.

Lemma Qltb_comp (a a' b b' : Q) :
  a == a' -> b == b' -> Qltb a b = Qltb a' b'.
Proof.
  intros Ha Hb. unfold Qltb. now rewrite Ha, Hb.
Qed.

(** The floor is the one integer [f] with [f <= x < f + 1]. *)
Lemma Qfloor_unique (x : Q) (f : Z) :
  inject_Z f <= x -> x < inject_Z (f + 1) -> Qfloor x = f.
Proof.
  intros Hlo Hhi.
  pose proof (Qfloor_le x) as Fl. pose proof (Qlt_floor x) as Fh.
  assert (A : inject_Z f < inject_Z (Qfloor x + 1))
    by (eapply Qle_lt_trans; eauto).
  assert (B : inject_Z (Qfloor x) < inject_Z (f + 1))
    by (eapply Qle_lt_trans; eauto).
  rewrite <- Zlt_Qlt in A, B. lia.
Qed.

Lemma Qfloor_add_Z (x : Q) (k : Z) :
  Qfloor (x + inject_Z k) = (Qfloor x + k)%Z.
Proof.
  apply Qfloor_unique.
  - rewrite inject_Z_plus. pose proof (Qfloor_le x). lra.
  - pose proof (Qlt_floor x) as H.
    replace (Qfloor x + k + 1)%Z with ((Qfloor x + 1) + k)%Z by lia.
    rewrite inject_Z_plus. lra.
Qed.

Lemma round_half_even_comp (x y : Q) :
  x == y -> round_half_even x = round_half_even y.
Proof.
  intro E. unfold round_half_even.
  rewrite (Qfloor_comp _ _ E).
  rewrite (Qltb_comp (x - inject_Z (Qfloor y)) (y - inject_Z (Qfloor y))
             (1 # 2) (1 # 2)) by (rewrite ?E; reflexivity).
  rewrite (Qltb_comp (1 # 2) (1 # 2)
             (x - inject_Z (Qfloor y)) (y - inject_Z (Qfloor y)))
    by (rewrite ?E; reflexivity).
  reflexivity.
Qed.

Lemma round_half_even_Z (n : Z) : round_half_even (inject_Z n) = n.
Proof.
  unfold round_half_even. rewrite Qfloor_Z.
  replace (Qltb (inject_Z n - inject_Z n) (1 # 2)) with true; trivial.
  symmetry. apply Qltb_lt. lra.
Qed.

(** Moving [x] by an even integer moves its rounding by the same integer. *)
Lemma round_half_even_shift (x : Q) (k : Z) :
  Z.even k = true ->
  round_half_even (x + inject_Z k) = (round_half_even x + k)%Z.
Proof.
  intro Hk. unfold round_half_even.
  rewrite Qfloor_add_Z.
  assert (E : x + inject_Z k - inject_Z (Qfloor x + k)
              == x - inject_Z (Qfloor x))
    by (rewrite inject_Z_plus; ring).
  rewrite (Qltb_comp _ (x - inject_Z (Qfloor x)) (1 # 2) (1 # 2) E)
    by reflexivity.
  rewrite (Qltb_comp (1 # 2) (1 # 2) _ (x - inject_Z (Qfloor x)))
    by (trivial; reflexivity).
  rewrite Z.even_add, Hk.
  destruct (Qltb (x - inject_Z (Qfloor x)) (1 # 2)); trivial.
  destruct (Qltb (1 # 2) (x - inject_Z (Qfloor x))); [lia|].
  destruct (Z.even (Qfloor x)); simpl; lia.
Qed.

Lemma pow10_pos (n : nat) : 0 < inject_Z (10 ^ Z.of_nat n).
Proof.
  replace 0 with (inject_Z 0) by reflexivity.
  rewrite <- Zlt_Qlt. apply Z.pow_pos_nonneg; lia.
Qed.

Lemma py_round_comp (x y : Q) (n : nat) :
  x == y -> py_round x n == py_round y n.
Proof.
  intro E. unfold py_round.
  set (p := inject_Z (10 ^ Z.of_nat n)).
  rewrite (round_half_even_comp (x * p) (y * p)); [reflexivity|].
  now rewrite E.
Qed.

(** A value rounded to [n] decimals is its own rounding to [n] decimals. *)
Lemma py_round_idem (x : Q) (n : nat) :
  py_round (py_round x n) n == py_round x n.
Proof.
  unfold py_round at 1.
  set (p := inject_Z (10 ^ Z.of_nat n)).
  assert (Hp : 0 < p) by apply pow10_pos.
  rewrite (round_half_even_comp _ (inject_Z (round_half_even (x * p)))).
  - rewrite round_half_even_Z. reflexivity.
  - unfold py_round. fold p. field. lra.
Qed.

End NumFacts.

(** ** The score composer *)

Module ComposerFacts.

Import Py Num Datetime Scoring Spec NumFacts.
Local Open Scope Q_scope.

(** [priority_score] is [score_before_completion] followed by the penalty,
    the rounding and the clamping. *)
Lemma priority_score_split (f : TodoFeatures) (c : Clock) :
  priority_score f c
  = bind (score_before_completion f)
         (fun total => ret (finish (completed f) total)) c.
Proof.
  unfold priority_score, score_before_completion, bind, lift, ret, finish.
  destruct (_normalize_dt (created_at f)) as [created|e]; trivial.
  destruct (_age_bonus created c) as [[age c1]|e]; trivial.
  destruct (_normalize_dt (due_date f)) as [due|e]; trivial.
  destruct (_due_date_bonus due c1) as [[db c2]|e]; trivial.
Qed.

(** A timestamp that converts to UTC is normalized without an exception, to
    nothing or to an aware value in UTC. *)
Lemma normalize_dt_ok (value : option datetime) :
  converts_to_utc value = true ->
  exists v, _normalize_dt value = Ok v
            /\ (forall d, v = Some d -> normalized d).
Proof.
  destruct value as [d|]; simpl.
  - destruct (tzinfo d) as [off|] eqn:T; intro H.
    + unfold astimezone_utc. rewrite T, H.
      eexists; split; [reflexivity|].
      intros d' E. injection E as <-. reflexivity.
    + eexists; split; [reflexivity|].
      intros d' E. injection E as <-. reflexivity.
  - intros _. exists None. split; [reflexivity | discriminate].
Qed.

Lemma age_bonus_returns (created : option datetime) (c : Clock) :
  (forall d, created = Some d -> normalized d) ->
  exists q, _age_bonus created c
            = Ok (q, match created with None => c | Some _ => tick c end).
Proof.
  destruct created as [d|]; intro N.
  - specialize (N d eq_refl). unfold normalized in N.
    unfold _age_bonus, bind, now_utc, lift, sub, ret; simpl. rewrite N.
    repeat match goal with
           | |- context [if ?b then _ else _] => destruct b
           end; eexists; reflexivity.
  - exists 0.0. reflexivity.
Qed.

Lemma due_date_bonus_returns (due : option datetime) (c : Clock) :
  (forall d, due = Some d -> normalized d) ->
  exists q, _due_date_bonus due c
            = Ok (q, match due with None => c | Some _ => tick c end).
Proof.
  destruct due as [d|]; intro N.
  - specialize (N d eq_refl). unfold normalized in N.
    unfold _due_date_bonus, bind, now_utc, lift, sub, ret; simpl. rewrite N.
    repeat match goal with
           | |- context [if ?b then _ else _] => destruct b
           end; eexists; reflexivity.
  - exists 0.0. reflexivity.
Qed.

Lemma score_before_completion_returns (f : TodoFeatures) (c : Clock) :
  converts_to_utc (created_at f) = true ->
  converts_to_utc (due_date f) = true ->
  exists total c',
    score_before_completion f c = Ok (total, c')
    /\ readings c' = readings c.
Proof.
  intros Hc Hd.
  destruct (normalize_dt_ok _ Hc) as (created & Ec & Nc).
  destruct (normalize_dt_ok _ Hd) as (due & Ed & Nd).
  destruct (age_bonus_returns created c Nc) as (age & Ea).
  unfold score_before_completion, bind, lift, ret.
  rewrite Ec, Ea, Ed.
  destruct (due_date_bonus_returns due
              (match created with None => c | Some _ => tick c end) Nd)
    as (db & Eb).
  rewrite Eb. eexists; eexists; split; [reflexivity|].
  destruct created, due; reflexivity.
Qed.

(** [priority_score] returns when the timestamps convert to UTC, and only
    advances the clock. *)
Lemma priority_score_returns (f : TodoFeatures) (c : Clock) :
  converts_to_utc (created_at f) = true ->
  converts_to_utc (due_date f) = true ->
  exists total c',
    score_before_completion f c = Ok (total, c')
    /\ priority_score f c = Ok (finish (completed f) total, c')
    /\ readings c' = readings c.
Proof.
  intros Hc Hd.
  destruct (score_before_completion_returns f c Hc Hd) as (total & c' & E & R).
  exists total, c'. repeat split; trivial.
  rewrite priority_score_split. unfold bind. now rewrite E.
Qed.



End ComposerFacts.

(** ** The score: range, rounding and the completion penalty *)

Module ComposerClaims.

Import Py Num Datetime Scoring Spec NumFacts ComposerFacts Examples.
Local Open Scope Q_scope.

(** Splits the goal on every [py_min], [py_max], [Qmin] and [Qmax] in it and
    leaves linear arithmetic. *)
Ltac minmax_cases :=
  unfold py_max, py_min;
  repeat match goal with
         | |- context [Qltb ?a ?b] =>
             let E := fresh "E" in
             destruct (Qltb a b) eqn:E;
             [apply Qltb_lt in E | apply Qltb_ge in E]
         | H : context [Qltb ?a ?b] |- _ =>
             let E := fresh "E" in
             destruct (Qltb a b) eqn:E;
             [apply Qltb_lt in E | apply Qltb_ge in E]
         | |- context [Qmax ?a ?b] =>
             let m := fresh "m" in
             let Hm := fresh "Hm" in
             pose proof (Q.max_spec a b) as Hm;
             generalize dependent (Qmax a b); intros m Hm
         | |- context [Qmin ?a ?b] =>
             let m := fresh "m" in
             let Hm := fresh "Hm" in
             pose proof (Q.min_spec a b) as Hm;
             generalize dependent (Qmin a b); intros m Hm
         | H : context [Qmax ?a ?b] |- _ =>
             let m := fresh "m" in
             let Hm := fresh "Hm" in
             pose proof (Q.max_spec a b) as Hm;
             generalize dependent (Qmax a b); intros m Hm
         | H : context [Qmin ?a ?b] |- _ =>
             let m := fresh "m" in
             let Hm := fresh "Hm" in
             pose proof (Q.min_spec a b) as Hm;
             generalize dependent (Qmin a b); intros m Hm
         end.

Ltac split_all :=
  repeat match goal with
         | H : _ \/ _ |- _ => destruct H
         | H : _ /\ _ |- _ => destruct H
         end.




End ComposerClaims.

(** ** The completion penalty, on exact numbers and on binary64 *)

Module PenaltyFacts.

Import PrimFloat.
Import Py Datetime Scoring Spec ComposerFacts.
Local Open Scope float_scope.

(** On binary64 too, [priority_score] is [score_before_completion] followed
    by the penalty, the rounding and the clamping. *)
Lemma binary64_priority_score_split (f : TodoFeatures) (c : Clock) :
  Binary64.priority_score f c
  = bind (Binary64.score_before_completion f)
         (fun total =>
            ret (Binary64.py_max 0.0
                   (Binary64.py_min 1.0
                      (Binary64.py_round
                         (if completed f then total - 0.6 else total) 3)))) c.
Proof.
  unfold Binary64.priority_score, Binary64.score_before_completion,
    bind, lift, ret.
  destruct (_normalize_dt (created_at f)) as [created|e]; trivial.
  destruct (Binary64._age_bonus created c) as [[age c1]|e]; trivial.
  destruct (_normalize_dt (due_date f)) as [due|e]; trivial.
  destruct (Binary64._due_date_bonus due c1) as [[db c2]|e]; trivial.
Qed.

Lemma binary64_age_bonus_returns (created : option datetime) (c : Clock) :
  (forall d, created = Some d -> normalized d) ->
  exists q, Binary64._age_bonus created c
            = Ok (q, match created with None => c | Some _ => tick c end).
Proof.
  destruct created as [d|]; intro N.
  - specialize (N d eq_refl). unfold normalized in N.
    unfold Binary64._age_bonus, bind, now_utc, lift, Datetime.sub, ret; simpl.
    rewrite N.
    repeat match goal with
           | |- context [if ?b then _ else _] => destruct b
           end; eexists; reflexivity.
  - exists 0.0. reflexivity.
Qed.

Lemma binary64_due_date_bonus_returns (due : option datetime) (c : Clock) :
  (forall d, due = Some d -> normalized d) ->
  exists q, Binary64._due_date_bonus due c
            = Ok (q, match due with None => c | Some _ => tick c end).
Proof.
  destruct due as [d|]; intro N.
  - specialize (N d eq_refl). unfold normalized in N.
    unfold Binary64._due_date_bonus, bind, now_utc, lift, Datetime.sub, ret;
      simpl.
    rewrite N.
    repeat match goal with
           | |- context [if ?b then _ else _] => destruct b
           end; eexists; reflexivity.
  - exists 0.0. reflexivity.
Qed.

(** With timestamps that convert to UTC the running total is reached, on
    exact numbers and on binary64, after the same readings of the clock. *)
Lemma totals_return (f : TodoFeatures) (c : Clock) :
  converts_to_utc (created_at f) = true ->
  converts_to_utc (due_date f) = true ->
  exists total total64 c',
    score_before_completion f c = Ok (total, c')
    /\ Binary64.score_before_completion f c = Ok (total64, c').
Proof.
  intros Hc Hd.
  destruct (normalize_dt_ok _ Hc) as (created & Ec & Nc).
  destruct (normalize_dt_ok _ Hd) as (due & Ed & Nd).
  destruct (age_bonus_returns created c Nc) as (age & Ea).
  destruct (binary64_age_bonus_returns created c Nc) as (age64 & Ea64).
  unfold score_before_completion, Binary64.score_before_completion,
    bind, lift, ret.
  rewrite Ec, Ea, Ea64, Ed.
  destruct (due_date_bonus_returns due
              (match created with None => c | Some _ => tick c end) Nd)
    as (db & Eb).
  destruct (binary64_due_date_bonus_returns due
              (match created with None => c | Some _ => tick c end) Nd)
    as (db64 & Eb64).
  rewrite Eb, Eb64. do 3 eexists. split; reflexivity.
Qed.

End PenaltyFacts.

Module PenaltyClaims.

Import PrimFloat.
Import Py Num Datetime Scoring Spec NumFacts ComposerFacts PenaltyFacts.
Import Examples.

(** C2 (as stated) fails on Python's numbers.  The completed item with the
    title "urgent", no tags and no timestamps has the total 0.35 + 0.35 =
    0.7; [priority_score] returns round(0.7 - 0.6, 3) = 0.1, while
    max(0, round(0.7, 3) - 0.60) clamped to [0, 1] is 0.7 - 0.6 =
    0.09999999999999998. *)
Lemma completed_formula_misses_the_score :
  Binary64.score_before_completion Binary64.urgent_done
    (fixed_clock new_year_2024)
  = Ok (0.7%float, fixed_clock new_year_2024)
  /\ Binary64.priority_score Binary64.urgent_done (fixed_clock new_year_2024)
     = Ok (0.1%float, fixed_clock new_year_2024)
  /\ Binary64.completed_score 0.7%float = 0.09999999999999998%float
  /\ (0.09999999999999998 <? 0.1)%float = true
  /\ ~ (forall total c',
          Binary64.score_before_completion Binary64.urgent_done
            (fixed_clock new_year_2024) = Ok (total, c') ->
          Binary64.priority_score Binary64.urgent_done
            (fixed_clock new_year_2024)
          = Ok (Binary64.completed_score total, c')).
Proof.
  assert (T : Binary64.score_before_completion Binary64.urgent_done
                (fixed_clock new_year_2024)
              = Ok (0.7%float, fixed_clock new_year_2024))
    by (vm_compute; reflexivity).
  assert (S : Binary64.priority_score Binary64.urgent_done
                (fixed_clock new_year_2024)
              = Ok (0.1%float, fixed_clock new_year_2024))
    by (vm_compute; reflexivity).
  assert (F : Binary64.completed_score 0.7%float
              = 0.09999999999999998%float)
    by (vm_compute; reflexivity).
  split; [exact T|]. split; [exact S|]. split; [exact F|].
  split; [vm_compute; reflexivity|].
  intro H. specialize (H _ _ T). rewrite S, F in H.
  apply (f_equal (fun r => match r with
                           | Ok (x, _) => (x <? 0.1)%float
                           | Raise _ => false
                           end)) in H.
  vm_compute in H. discriminate.
Qed.

(** C2 (as amended): for every completed item and every state of the clock,
    when the running total of 0.35 and the four bonuses is [total], the
    score is [total - 0.6] rounded to three decimals and then clamped to
    [0, 1]: the penalty is taken off the unrounded total, after all four
    bonuses and before the rounding and the clamping.  This holds on exact
    numbers and on binary64.  An exception raised on the way to the total is
    the exception of [priority_score], and the total is reached whenever
    both timestamps convert to UTC. *)
Theorem completed_penalty_before_rounding (f : TodoFeatures) (c : Clock) :
  completed f = true ->
  (forall total c',
      score_before_completion f c = Ok (total, c') ->
      exists s, priority_score f c = Ok (s, c')
                /\ (s == clamp01 (round3 (total - 0.60)))%Q)
  /\ (forall e, score_before_completion f c = Raise e ->
                priority_score f c = Raise e)
  /\ (forall total c',
         Binary64.score_before_completion f c = Ok (total, c') ->
         Binary64.priority_score f c
         = Ok (Binary64.py_max 0.0
                 (Binary64.py_min 1.0
                    (Binary64.py_round (total - 0.6)%float 3)), c'))
  /\ (forall e, Binary64.score_before_completion f c = Raise e ->
                Binary64.priority_score f c = Raise e)
  /\ (converts_to_utc (created_at f) = true ->
      converts_to_utc (due_date f) = true ->
      exists total total64 c',
        score_before_completion f c = Ok (total, c')
        /\ Binary64.score_before_completion f c = Ok (total64, c')).
Proof.
  intro Hdone. repeat split.
  - intros total c' E.
    exists (finish true total). split.
    + rewrite priority_score_split. unfold bind, ret.
      now rewrite E, Hdone.
    + unfold finish, clamp01, round3.
      rewrite py_max_Qmax, py_min_Qmin.
      apply Q.max_compat; [reflexivity|].
      apply Q.min_compat; [reflexivity|].
      apply py_round_comp. lra.
  - intros e E. rewrite priority_score_split. unfold bind. now rewrite E.
  - intros total c' E.
    rewrite binary64_priority_score_split. unfold bind, ret.
    now rewrite E, Hdone.
  - intros e E. rewrite binary64_priority_score_split. unfold bind.
    now rewrite E.
  - intros Hc Hd. exact (totals_return f c Hc Hd).
Qed.

Lemma completed_penalty_before_rounding_witness :
  completed urgent_call_done = true
  /\ (exists total c',
         score_before_completion urgent_call_done (fixed_clock new_year_2024)
         = Ok (total, c')
         /\ exists s,
              priority_score urgent_call_done (fixed_clock new_year_2024)
              = Ok (s, c')
              /\ (s == clamp01 (round3 (total - 0.60)))%Q)
  /\ Binary64.priority_score Binary64.urgent_done (fixed_clock new_year_2024)
     = Ok (Binary64.py_max 0.0
             (Binary64.py_min 1.0
                (Binary64.py_round (0.7 - 0.6)%float 3)),
           fixed_clock new_year_2024).
Proof.
  split; [reflexivity|]. split.
  - do 2 eexists. split; [vm_compute; reflexivity|].
    apply (proj1 (completed_penalty_before_rounding urgent_call_done
                    (fixed_clock new_year_2024) eq_refl)).
    vm_compute. reflexivity.
  - apply (proj1 (proj2 (proj2
             (completed_penalty_before_rounding Binary64.urgent_done
                (fixed_clock new_year_2024) eq_refl)))).
    vm_compute. reflexivity.
Defined.

End PenaltyClaims.

(** ** The age and due-date bonuses *)

Module TimeFacts.

Import Py Num Datetime Scoring Spec NumFacts Examples.
Local Open Scope Q_scope.

(** Seconds over 3600 are microseconds over 3600000000. *)
Lemma total_seconds_hours (delta : timedelta) :
  total_seconds delta / 3600 == hours delta.
Proof.
  unfold total_seconds, hours.
  change (inject_Z 1000000) with (1000000 # 1).
  change (inject_Z 3600000000) with (3600000000 # 1).
  field.
Qed.

(** What [_age_bonus] computes and compares for a normalized timestamp. *)
Lemma age_bonus_unfold (c : Clock) (d : datetime) :
  normalized d ->
  exists h,
    h == elapsed_hours (current c) d
    /\ _age_bonus (Some d) c
       = (if Qle_bool h 24 then Ok (0.05, tick c)
          else if Qle_bool h (24 * 3) then Ok (0.1, tick c)
          else if Qle_bool h (24 * 7) then Ok (0.15, tick c)
          else Ok (0.2, tick c)).
Proof.
  intro N. unfold normalized in N.
  exists (total_seconds (current c - utc - (wall d - utc))%Z / 3600).
  split.
  - rewrite total_seconds_hours. unfold elapsed_hours, utc.
    now rewrite !Z.sub_0_r.
  - unfold _age_bonus, bind, now_utc, lift, sub, ret. simpl. rewrite N.
    repeat match goal with
           | |- context [if ?b then _ else _] => destruct b
           end; reflexivity.
Qed.

Lemma due_date_bonus_unfold (c : Clock) (d : datetime) :
  normalized d ->
  exists h,
    h == remaining_hours (current c) d
    /\ _due_date_bonus (Some d) c
       = (if Qle_bool h 0 then Ok (0.3, tick c)
          else if Qle_bool h 24 then Ok (0.25, tick c)
          else if Qle_bool h (24 * 3) then Ok (0.2, tick c)
          else if Qle_bool h (24 * 7) then Ok (0.1, tick c)
          else Ok (0.05, tick c)).
Proof.
  intro N. unfold normalized in N.
  exists (total_seconds (wall d - utc - (current c - utc))%Z / 3600).
  split.
  - rewrite total_seconds_hours. unfold remaining_hours, utc.
    now rewrite !Z.sub_0_r.
  - unfold _due_date_bonus, bind, now_utc, lift, sub, ret. simpl. rewrite N.
    repeat match goal with
           | |- context [if ?b then _ else _] => destruct b
           end; reflexivity.
Qed.

Lemma Qle_bool_false (a b : Q) : Qle_bool a b = false <-> b < a.
Proof.
  split; intro H.
  - apply Qnot_le_lt. intro L. apply Qle_bool_iff in L. congruence.
  - destruct (Qle_bool a b) eqn:E; trivial.
    apply Qle_bool_iff in E. apply Qle_not_lt in E. contradiction.
Qed.

(** Decides the chain of threshold tests of a bonus from the bounds on the
    hours that are among the hypotheses. *)
Ltac thresholds :=
  repeat match goal with
         | |- context [Qle_bool ?h ?k] =>
             let E := fresh "E" in
             destruct (Qle_bool h k) eqn:E;
             [apply Qle_bool_iff in E | apply Qle_bool_false in E]
         end;
  try reflexivity; exfalso; lra.

(** C3: [None] gives 0.0; for a normalized [created_at], 0.05 up to 24
    elapsed hours, 0.10 up to 72, 0.15 up to 168, and 0.20 beyond; for a
    normalized [due_date], 0.30 when no hour remains, 0.25 up to 24
    remaining hours, 0.20 up to 72, 0.10 up to 168, and 0.05 beyond.  Every
    bound belongs to the bucket below it, and the clock is read once. *)
Theorem age_and_due_date_steps (c : Clock) (d : datetime) :
  normalized d ->
  _age_bonus None c = Ok (0.0, c)
  /\ _due_date_bonus None c = Ok (0.0, c)
  /\ (elapsed_hours (current c) d <= 24 ->
      _age_bonus (Some d) c = Ok (0.05, tick c))
  /\ (24 < elapsed_hours (current c) d <= 72 ->
      _age_bonus (Some d) c = Ok (0.1, tick c))
  /\ (72 < elapsed_hours (current c) d <= 168 ->
      _age_bonus (Some d) c = Ok (0.15, tick c))
  /\ (168 < elapsed_hours (current c) d ->
      _age_bonus (Some d) c = Ok (0.2, tick c))
  /\ (remaining_hours (current c) d <= 0 ->
      _due_date_bonus (Some d) c = Ok (0.3, tick c))
  /\ (0 < remaining_hours (current c) d <= 24 ->
      _due_date_bonus (Some d) c = Ok (0.25, tick c))
  /\ (24 < remaining_hours (current c) d <= 72 ->
      _due_date_bonus (Some d) c = Ok (0.2, tick c))
  /\ (72 < remaining_hours (current c) d <= 168 ->
      _due_date_bonus (Some d) c = Ok (0.1, tick c))
  /\ (168 < remaining_hours (current c) d ->
      _due_date_bonus (Some d) c = Ok (0.05, tick c)).
Proof.
  intro N.
  destruct (age_bonus_unfold c d N) as (h & Hh & ->).
  destruct (due_date_bonus_unfold c d N) as (h' & Hh' & ->).
  rewrite <- Hh, <- Hh'. clear Hh Hh'.
  repeat split; trivial; intros; thresholds.
Qed.

Lemma age_and_due_date_steps_witness :
  normalized second_of_january
  /\ _due_date_bonus (Some second_of_january) (fixed_clock new_year_2024)
     = Ok (0.25, tick (fixed_clock new_year_2024)).
Proof.
  split; [reflexivity|].
  apply (age_and_due_date_steps (fixed_clock new_year_2024) second_of_january);
    [reflexivity|].
  vm_compute. split; [reflexivity | discriminate].
Defined.

(** The buckets at their bounds: exactly 24, 72 and 168 hours after
    [created_at], and exactly 0, 24, 72 and 168 hours before [due_date]. *)
Example bonuses_at_the_bounds :
  let after (n : Z) := fixed_clock (new_year_2024 + n * hour)%Z in
  let before (n : Z) := fixed_clock (new_year_2024 - n * hour)%Z in
  let d := {| wall := new_year_2024; tzinfo := Some utc |} in
  _age_bonus (Some d) (after 24%Z) = Ok (0.05, tick (after 24%Z))
  /\ _age_bonus (Some d) (after 72%Z) = Ok (0.1, tick (after 72%Z))
  /\ _age_bonus (Some d) (after 168%Z) = Ok (0.15, tick (after 168%Z))
  /\ _due_date_bonus (Some d) (before 0%Z) = Ok (0.3, tick (before 0%Z))
  /\ _due_date_bonus (Some d) (before 24%Z) = Ok (0.25, tick (before 24%Z))
  /\ _due_date_bonus (Some d) (before 72%Z) = Ok (0.2, tick (before 72%Z))
  /\ _due_date_bonus (Some d) (before 168%Z) = Ok (0.1, tick (before 168%Z)).
Proof.
  repeat split; reflexivity.
Qed.

Lemma hours_negative (delta : Z) : (delta < 0)%Z -> hours delta < 0.
Proof.
  intro H. unfold hours, Qdiv, Qmult, Qlt. simpl. lia.
Qed.

(** C10: a normalized [created_at] that lies after the instant the clock
    shows has negative elapsed hours and gets the bonus of the first bucket,
    0.05, not 0.0. *)
Theorem future_created_at_counts_as_fresh (c : Clock) (d : datetime) :
  normalized d ->
  (current c < wall d)%Z ->
  elapsed_hours (current c) d < 0
  /\ _age_bonus (Some d) c = Ok (0.05, tick c).
Proof.
  intros N F.
  assert (H : elapsed_hours (current c) d < 0)
    by (apply hours_negative; lia).
  split; trivial.
  destruct (age_bonus_unfold c d N) as (h & Hh & ->).
  rewrite <- Hh in H. thresholds.
Qed.

Lemma future_created_at_counts_as_fresh_witness :
  normalized second_of_january
  /\ (current (fixed_clock new_year_2024) < wall second_of_january)%Z
  /\ _age_bonus (Some second_of_january) (fixed_clock new_year_2024)
     = Ok (0.05, tick (fixed_clock new_year_2024)).
Proof.
  split; [reflexivity|]. split; [reflexivity|].
  apply (future_created_at_counts_as_fresh
           (fixed_clock new_year_2024) second_of_january);
    reflexivity.
Defined.

End TimeFacts.

(** ** The keyword bonus *)

Module KeywordFacts.

Import Py Num Datetime Scoring Spec NumFacts Examples.
Local Open Scope Q_scope.
Local Open Scope string_scope.

Lemma isspace_lower_char (c : ascii) :
  Str.isspace (Str.lower_char c) = Str.isspace c.
Proof.
  destruct c as [[] [] [] [] [] [] [] []]; reflexivity.
Qed.

Lemma is_empty_snoc (s : string) (c : ascii) :
  Str.is_empty (s ++ String c EmptyString) = false.
Proof.
  destruct s; reflexivity.
Qed.

(** Lower-casing a text keeps its words apart as they were. *)
Lemma split_from_lower_length (s cur cur' : string) :
  Str.is_empty cur = Str.is_empty cur' ->
  List.length (Str.split_from cur (Str.lower s))
  = List.length (Str.split_from cur' s).
Proof.
  revert cur cur'.
  induction s as [|c s IH]; intros cur cur' E; simpl.
  - rewrite E. destruct (Str.is_empty cur'); reflexivity.
  - rewrite isspace_lower_char.
    destruct (Str.isspace c).
    + rewrite E. destruct (Str.is_empty cur'); simpl;
        rewrite (IH EmptyString EmptyString); trivial.
    + apply IH. now rewrite !is_empty_snoc.
Qed.

Lemma word_count_lower (title : string) :
  Z.of_nat (List.length (Str.split (Str.lower title))) = word_count title.
Proof.
  unfold word_count, Str.split.
  now rewrite (split_from_lower_length title EmptyString EmptyString).
Qed.

(** The loop over [KEYWORD_WEIGHTS] and the long-title test add up to the
    sum of the specification. *)
Lemma keyword_loop_sum (title : string) :
  (let bonus :=
     fold_left
       (fun bonus kw => if Str.contains (fst kw) (Str.lower title)
                        then bonus + snd kw else bonus)
       KEYWORD_WEIGHTS 0.0 in
   if (8 <=? Z.of_nat (List.length (Str.split (Str.lower title))))%Z
   then bonus + 0.05 else bonus)
  == keyword_sum title + long_title title.
Proof.
  rewrite word_count_lower.
  unfold keyword_sum, long_title, is_long, matches, KEYWORD_WEIGHTS.
  cbn [fold_left fst snd].
  generalize (Str.contains "urgent" (Str.lower title)).
  generalize (Str.contains "asap" (Str.lower title)).
  generalize (Str.contains "important" (Str.lower title)).
  generalize (Str.contains "today" (Str.lower title)).
  generalize (Str.contains "tomorrow" (Str.lower title)).
  generalize (Str.contains "email" (Str.lower title)).
  generalize (Str.contains "call" (Str.lower title)).
  generalize (8 <=? word_count title)%Z.
  intros [] [] [] [] [] [] [] []; reflexivity.
Qed.

Lemma keyword_bonus_spec (title : string) :
  _keyword_bonus title == Qmin 0.45 (keyword_sum title + long_title title).
Proof.
  unfold _keyword_bonus. cbv zeta.
  rewrite py_min_Qmin, Q.min_comm.
  apply Q.min_compat; [reflexivity|].
  apply keyword_loop_sum.
Qed.

Lemma weight_if_mono (b b' : bool) (w : Q) :
  0 <= w -> (b = true -> b' = true) ->
  weight_if b w <= weight_if b' w.
Proof.
  intros W I. destruct b.
  - rewrite (I eq_refl). apply Qle_refl.
  - destruct b'; simpl; trivial. apply Qle_refl.
Qed.

(** C4: the keyword bonus is [min(0.45, S + L)], with [S] the weights of
    the keywords that occur in the lower-cased title, each once, and [L] the
    0.05 of a title of eight words or more. *)
Theorem keyword_bonus_is_capped_sum (title : string) :
  _keyword_bonus title == Qmin 0.45 (keyword_sum title + long_title title).
Proof.
  exact (keyword_bonus_spec title).
Qed.

(** C8: a title that matches every keyword another title matches, and is
    long whenever that one is, has at least its keyword bonus; and no
    keyword bonus exceeds 0.45. *)
Theorem keyword_bonus_monotone (t1 t2 : string) :
  ((forall kw, In kw keywords -> matches kw t1 = true -> matches kw t2 = true) ->
   (is_long t1 = true -> is_long t2 = true) ->
   _keyword_bonus t1 <= _keyword_bonus t2)
  /\ _keyword_bonus t1 <= 0.45.
Proof.
  rewrite !keyword_bonus_spec. split.
  - intros K L.
    apply Q.min_le_compat_l.
    unfold keyword_sum, long_title.
    repeat apply Qplus_le_compat;
      apply weight_if_mono; trivial; try discriminate;
      apply K; simpl; tauto.
  - apply Q.le_min_l.
Qed.

Lemma keyword_bonus_monotone_witness :
  (forall kw, In kw keywords ->
              matches kw "call mum" = true ->
              matches kw "Call mum TODAY" = true)
  /\ (is_long "call mum" = true -> is_long "Call mum TODAY" = true)
  /\ _keyword_bonus "call mum" <= _keyword_bonus "Call mum TODAY".
Proof.
  assert (K : forall kw, In kw keywords ->
                         matches kw "call mum" = true ->
                         matches kw "Call mum TODAY" = true).
  { intros kw H. simpl in H.
    repeat (destruct H as [<-|H]; [vm_compute; trivial|]).
    contradiction. }
  assert (L : is_long "call mum" = true -> is_long "Call mum TODAY" = true)
    by (vm_compute; trivial).
  split; [exact K|]. split; [exact L|].
  apply (keyword_bonus_monotone "call mum" "Call mum TODAY"); assumption.
Defined.

(** C6: "URGENT: call client today" with the tag "bug" and no timestamps
    matches urgent, call and today and no other keyword; the weights add up
    to 0.60 and the keyword bonus is 0.45; the tag bonus is 0.20; the score
    is 1.0 whatever the clock shows, and the clock is not read. *)
Theorem urgent_call_scores_one (c : Clock) :
  map (fun kw => matches kw (title urgent_call)) keywords
  = [true; false; false; true; false; false; true]
  /\ keyword_sum (title urgent_call) == 0.60
  /\ _keyword_bonus (title urgent_call) == 0.45
  /\ _tag_bonus (tags urgent_call) == 0.20
  /\ exists s, priority_score urgent_call c = Ok (s, c) /\ s == 1.0.
Proof.
  repeat split; try reflexivity.
  eexists. split; [lazy; reflexivity | reflexivity].
Qed.

End KeywordFacts.

(** ** The tag bonus *)

Module TagFacts.

Import Py Num Datetime Scoring Spec NumFacts Examples.
Local Open Scope Q_scope.
Local Open Scope string_scope.

(** The lookup in [TAG_WEIGHTS] with the default 0.03 is the weight of the
    specification. *)
Lemma dict_get_tag_weight (raw : string) :
  dict_get TAG_WEIGHTS (tag_key raw) 0.03 == tag_weight raw.
Proof.
  unfold tag_weight, TAG_WEIGHTS. cbn [dict_get].
  rewrite (String.eqb_sym "work"), (String.eqb_sym "home"),
    (String.eqb_sym "bug"), (String.eqb_sym "feature").
  repeat match goal with
         | |- context [String.eqb ?a ?b] => destruct (String.eqb a b)
         end; reflexivity.
Qed.

Lemma tag_loop_sum (tags : list string) (acc : Q) :
  fold_left
    (fun bonus raw =>
       let tag := Str.strip (Str.lower raw) in
       bonus + dict_get TAG_WEIGHTS tag 0.03)
    tags acc
  == acc + tag_sum tags.
Proof.
  revert acc. induction tags as [|raw tags IH]; intro acc.
  - simpl. ring.
  - cbn [fold_left tag_sum]. rewrite IH.
    pose proof (dict_get_tag_weight raw) as W. unfold tag_key in W.
    cbv zeta. rewrite W. ring.
Qed.

Lemma tag_bonus_spec (tags : list string) :
  _tag_bonus tags == Qmin (tag_sum tags) 0.25.
Proof.
  destruct tags as [|raw tags].
  - reflexivity.
  - unfold _tag_bonus. cbv zeta.
    rewrite py_min_Qmin.
    apply Q.min_compat; [|reflexivity].
    rewrite tag_loop_sum. ring.
Qed.

Lemma unknown_tag_weight (raw : string) :
  known_tag raw = false -> tag_weight raw = 0.03.
Proof.
  unfold known_tag, tag_weight.
  repeat match goal with
         | |- context [String.eqb ?a ?b] => destruct (String.eqb a b)
         end; simpl; intro H; trivial; discriminate.
Qed.

Lemma unknown_tag_sum (tags : list string) :
  forallb (fun raw => negb (known_tag raw)) tags = true ->
  tag_sum tags == 0.03 * inject_Z (Z.of_nat (List.length tags)).
Proof.
  induction tags as [|raw tags IH]; intro U.
  - reflexivity.
  - cbn [forallb] in U. apply andb_true_iff in U as [U1 U2].
    apply negb_true_iff in U1.
    cbn [tag_sum List.length]. rewrite (unknown_tag_weight raw U1), (IH U2).
    rewrite Nat2Z.inj_succ. unfold Z.succ. rewrite inject_Z_plus.
    change (inject_Z 1) with 1. ring.
Qed.

(** C5: the bonus of the empty sequence is exactly 0.0; a sequence gets
    the sum of the weights of its entries (work 0.10, home 0.05, bug 0.20,
    feature 0.15, anything else 0.03, each entry lower-cased and trimmed,
    every occurrence counted) capped at 0.25; [k] entries that are all
    unknown get [min(0.03 * k, 0.25)]. *)
Theorem tag_bonus_is_capped_sum (tags : list string) :
  _tag_bonus [] = 0.0
  /\ _tag_bonus tags == Qmin (tag_sum tags) 0.25
  /\ (forallb (fun raw => negb (known_tag raw)) tags = true ->
      _tag_bonus tags
      == Qmin (0.03 * inject_Z (Z.of_nat (List.length tags))) 0.25).
Proof.
  split; [reflexivity|]. split.
  - apply tag_bonus_spec.
  - intro U. rewrite tag_bonus_spec.
    apply Q.min_compat; [|reflexivity].
    now apply unknown_tag_sum.
Qed.

Lemma tag_bonus_is_capped_sum_witness :
  forallb (fun raw => negb (known_tag raw)) ["errand"; "Errand"; " x "] = true
  /\ _tag_bonus ["errand"; "Errand"; " x "]
     == Qmin (0.03 * inject_Z (Z.of_nat 3)) 0.25.
Proof.
  split; [reflexivity|].
  apply (tag_bonus_is_capped_sum ["errand"; "Errand"; " x "]).
  reflexivity.
Defined.

(** A repeated tag counts each time, in any case and with blanks around it,
    up to the cap. *)
Example repeated_tags :
  _tag_bonus ["home"; " HOME "] == 0.10
  /\ _tag_bonus ["bug"; "bug"] == 0.25
  /\ _tag_bonus ["a"; "b"; "c"; "d"; "e"; "f"; "g"; "h"; "i"] == 0.25.
Proof.
  repeat split; reflexivity.
Qed.

End TagFacts.

(** ** The tag normalizer and the batch handler *)

Module HandlerFacts.

Import Py Num Datetime Main Spec NumFacts ComposerFacts Examples.
Local Open Scope string_scope.

(** The loop of [normalize_tags] keeps the truthy entries, in their order,
    each converted to text and trimmed. *)
Lemma normalize_loop (items : list pyval) (acc : list string) :
  fold_left
    (fun tags item =>
       if negb (truthy item) then tags
       else (tags ++ [Str.strip (str item)])%list)
    items acc
  = (acc ++ map (fun item => Str.strip (str item)) (filter truthy items))%list.
Proof.
  revert acc. induction items as [|item items IH]; intro acc; simpl.
  - now rewrite app_nil_r.
  - rewrite IH. destruct (truthy item); simpl; trivial.
    now rewrite <- app_assoc.
Qed.

Lemma normalize_tags_seq (items : list pyval) :
  normalize_tags (RawSeq items)
  = map (fun item => Str.strip (str item)) (filter truthy items).
Proof.
  unfold normalize_tags. now rewrite normalize_loop.
Qed.

(** Clean tokens pass the validator of [tags] unchanged. *)
Lemma normalize_clean_tags (tags : list string) :
  forallb clean_tag tags = true ->
  normalize_tags (as_raw tags) = tags.
Proof.
  intro C. unfold as_raw. rewrite normalize_tags_seq.
  induction tags as [|tag tags IH]; trivial.
  cbn [forallb] in C. apply andb_true_iff in C as [C1 C2].
  unfold clean_tag in C1. apply andb_true_iff in C1 as [N S].
  apply String.eqb_eq in S.
  cbn [map filter truthy]. rewrite N. cbn [map str].
  now rewrite S, (IH C2).
Qed.

Lemma score_result_init_echo (todo : TodoPayload.t) (s : Q) :
  check_fields (TodoPayload.title todo) (TodoPayload.tags todo) = true ->
  forallb clean_tag (TodoPayload.tags todo) = true ->
  ScoreResult.init (TodoPayload.title todo) (TodoPayload.completed todo)
    (TodoPayload.created_at todo) (TodoPayload.due_date todo)
    (as_raw (TodoPayload.tags todo)) s
  = Ok (echo todo s).
Proof.
  intros F C. unfold ScoreResult.init.
  rewrite (normalize_clean_tags _ C). cbv zeta. now rewrite F.
Qed.

Lemma scored_echo_readings (c c' : Clock) (todo : TodoPayload.t)
    (r : ScoreResult.t) :
  readings c' = readings c -> scored_echo c' todo r -> scored_echo c todo r.
Proof.
  unfold scored_echo. intros R (E & n & c2 & P).
  split; trivial. exists n, c2. now rewrite <- R.
Qed.

(** The loop appends one result per record, in order, to those it has. *)
Lemma score_loop_echoes (todos : list TodoPayload.t)
    (acc : list ScoreResult.t) (c : Clock) :
  forallb accepted todos = true ->
  exists rs c',
    score_loop todos acc c = Ok ((acc ++ rs)%list, c')
    /\ readings c' = readings c
    /\ Forall2 (scored_echo c) todos rs.
Proof.
  revert acc c.
  induction todos as [|todo todos IH]; intros acc c A.
  - exists [], c. rewrite app_nil_r. repeat split; constructor.
  - cbn [forallb] in A. apply andb_true_iff in A as [A1 A2].
    unfold accepted in A1.
    apply andb_true_iff in A1 as [A1 Hclean].
    apply andb_true_iff in A1 as [A1 Hdue].
    apply andb_true_iff in A1 as [Hfields Hcreated].
    destruct (priority_score_returns (features_of todo) c Hcreated Hdue)
      as (total & c1 & _ & P & R1).
    set (s := finish (Scoring.completed (features_of todo)) total) in P.
    destruct (IH (acc ++ [echo todo s])%list c1 A2) as (rs & c2 & L & R2 & F).
    exists (echo todo s :: rs), c2.
    split; [|split].
    + cbn [score_loop]. unfold bind at 1. fold (features_of todo).
      rewrite P. unfold bind at 1, lift.
      rewrite score_result_init_echo by trivial.
      rewrite L. now rewrite <- app_assoc.
    + congruence.
    + constructor.
      * split; [reflexivity|].
        exists (reads c), c1. destruct c; exact P.
      * eapply Forall2_impl; [|exact F].
        intros t r. now apply scored_echo_readings.
Qed.

(** C7 fails on the code: an entry of blanks is kept as the empty token,
    since emptiness is tested before the entry is trimmed, and a bare string
    is returned as it is, neither trimmed nor dropped when empty. *)
Theorem normalize_tags_keeps_blank_entries :
  normalize_tags (RawSeq [PyStr "  "; PyStr " home "; PyNone; PyStr ""])
  = [""; "home"]
  /\ normalize_tags (RawStr " home ") = [" home "]
  /\ normalize_tags (RawStr "") = [""].
Proof.
  repeat split; reflexivity.
Qed.

(** C9 (as amended): for every non-empty batch of records whose timestamps
    convert to UTC and whose tags are trimmed, non-empty tokens, on every
    state of the clock, the handler returns one result per record, in the
    order of the batch, each result being its record with the score that
    [priority_score] computes for it attached. *)
Theorem score_echoes_each_record (todos : list TodoPayload.t) (c : Clock) :
  todos <> [] ->
  forallb accepted todos = true ->
  exists rs c',
    score todos c = Ok ({| results := rs |}, c')
    /\ List.length rs = List.length todos
    /\ Forall2 (scored_echo c) todos rs.
Proof.
  intros N A.
  destruct (score_loop_echoes todos [] c A) as (rs & c' & L & _ & F).
  exists rs, c'. repeat split; trivial.
  - unfold score. destruct todos as [|t todos]; [contradiction|].
    cbn [List.length]. rewrite Nat2Z.inj_succ.
    destruct (Z.eqb_spec (Z.succ (Z.of_nat (List.length todos))) 0); [lia|].
    unfold bind, ret. now rewrite L.
  - symmetry. eapply Forall2_length; eauto.
Qed.

Lemma score_echoes_each_record_witness :
  [plain_note; plain_note] <> []
  /\ forallb accepted [plain_note; plain_note] = true
  /\ exists rs c',
       score [plain_note; plain_note] (fixed_clock new_year_2024)
       = Ok ({| results := rs |}, c')
       /\ List.length rs = List.length [plain_note; plain_note]
       /\ Forall2 (scored_echo (fixed_clock new_year_2024))
            [plain_note; plain_note] rs.
Proof.
  split; [discriminate|]. split; [reflexivity|].
  apply (score_echoes_each_record
           [plain_note; plain_note] (fixed_clock new_year_2024));
    [discriminate | reflexivity].
Defined.

(** C9 (as stated) fails: the record built from [tags = ["  "]] holds the
    empty token, and its result holds no tag; and a batch with a
    [created_at] of 0001-01-01T00:00:00+01:00 gets no results. *)
Lemma score_changes_tags_or_raises :
  TodoPayload.init "plan trip" false None None (RawSeq [PyStr "  "])
  = Ok blank_tag
  /\ TodoPayload.tags blank_tag = [""]
  /\ score [blank_tag] (fixed_clock new_year_2024)
     = Ok ({| results :=
                [ {| ScoreResult.title := "plan trip";
                     ScoreResult.completed := false;
                     ScoreResult.created_at := None;
                     ScoreResult.due_date := None;
                     ScoreResult.tags := [];
                     ScoreResult.priority_score := 0.380%Q |} ] |},
           fixed_clock new_year_2024)
  /\ score [far_past_record] (fixed_clock new_year_2024)
     = Raise OverflowError.
Proof.
  repeat split; reflexivity.
Qed.

End HandlerFacts.

(** ** Facts about [lower] and [strip] *)

Module StrFacts.

Local Open Scope string_scope.

Lemma lower_char_idem (c : ascii) :
  Str.lower_char (Str.lower_char c) = Str.lower_char c.
Proof.
  destruct c as [[] [] [] [] [] [] [] []]; reflexivity.
Qed.

Lemma isspace_lower (c : ascii) :
  Str.isspace (Str.lower_char c) = Str.isspace c.
Proof.
  destruct c as [[] [] [] [] [] [] [] []]; reflexivity.
Qed.

Lemma lower_idem (s : string) : Str.lower (Str.lower s) = Str.lower s.
Proof.
  induction s as [|c s IH]; simpl; [|rewrite lower_char_idem, IH]; reflexivity.
Qed.

Lemma lower_app (a b : string) :
  Str.lower (a ++ b) = Str.lower a ++ Str.lower b.
Proof.
  induction a as [|c a IH]; simpl; [|rewrite IH]; reflexivity.
Qed.

Lemma is_empty_lower (s : string) :
  Str.is_empty (Str.lower s) = Str.is_empty s.
Proof.
  destruct s; reflexivity.
Qed.

Lemma lower_lstrip (s : string) :
  Str.lower (Str.lstrip s) = Str.lstrip (Str.lower s).
Proof.
  induction s as [|c s IH]; simpl; trivial.
  rewrite isspace_lower. destruct (Str.isspace c); trivial.
Qed.

Lemma lower_rstrip (s : string) :
  Str.lower (Str.rstrip s) = Str.rstrip (Str.lower s).
Proof.
  induction s as [|c s IH]; simpl; trivial.
  rewrite <- IH, is_empty_lower, isspace_lower.
  destruct (Str.is_empty (Str.rstrip s) && Str.isspace c); trivial.
Qed.

(** Trimming and lower-casing commute. *)
Lemma lower_strip (s : string) :
  Str.lower (Str.strip s) = Str.strip (Str.lower s).
Proof.
  unfold Str.strip. now rewrite lower_rstrip, lower_lstrip.
Qed.

Lemma rstrip_idem (s : string) : Str.rstrip (Str.rstrip s) = Str.rstrip s.
Proof.
  induction s as [|c s IH]; simpl; trivial.
  destruct (Str.is_empty (Str.rstrip s) && Str.isspace c) eqn:E; trivial.
  simpl. now rewrite IH, E.
Qed.

Import Terms.

Lemma lstrip_starts_clean (s : string) : starts_clean (Str.lstrip s) = true.
Proof.
  induction s as [|c s IH]; simpl; trivial.
  destruct (Str.isspace c) eqn:E; trivial. simpl. now rewrite E.
Qed.

Lemma lstrip_clean (s : string) : starts_clean s = true -> Str.lstrip s = s.
Proof.
  destruct s as [|c s]; simpl; trivial.
  destruct (Str.isspace c); [discriminate | trivial].
Qed.

Lemma rstrip_starts_clean (s : string) :
  starts_clean s = true -> starts_clean (Str.rstrip s) = true.
Proof.
  destruct s as [|c s]; simpl; trivial.
  intro H. apply negb_true_iff in H. rewrite H, andb_false_r. simpl.
  now rewrite H.
Qed.

(** Trimming a trimmed text changes nothing. *)
Lemma strip_idem (s : string) : Str.strip (Str.strip s) = Str.strip s.
Proof.
  unfold Str.strip.
  rewrite (lstrip_clean (Str.rstrip (Str.lstrip s))).
  - apply rstrip_idem.
  - apply rstrip_starts_clean, lstrip_starts_clean.
Qed.

Lemma tag_key_idem (raw : string) :
  Spec.tag_key (Spec.tag_key raw) = Spec.tag_key raw.
Proof.
  unfold Spec.tag_key.
  now rewrite lower_strip, lower_idem, strip_idem.
Qed.

Lemma tag_key_strip (raw : string) :
  Spec.tag_key (Str.strip raw) = Spec.tag_key raw.
Proof.
  unfold Spec.tag_key. now rewrite lower_strip, strip_idem.
Qed.

Lemma startswith_app (p s : string) : Str.startswith (p ++ s) p = true.
Proof.
  induction p as [|c p IH]; simpl.
  - destruct s; reflexivity.
  - now rewrite Ascii.eqb_refl, IH.
Qed.

(** [sub in a + sub + b] *)
Lemma contains_unfold (sub s : string) :
  Str.contains sub s
  = Str.startswith s sub
    || match s with
       | EmptyString => false
       | String _ s' => Str.contains sub s'
       end.
Proof.
  destruct s; reflexivity.
Qed.

Lemma contains_app (sub a b : string) :
  Str.contains sub (a ++ sub ++ b) = true.
Proof.
  induction a as [|c a IH].
  - simpl (EmptyString ++ _).
    now rewrite contains_unfold, startswith_app.
  - simpl. rewrite IH. apply orb_true_r.
Qed.

End StrFacts.

(** ** Rounding between two points of the decimal grid *)

Module RoundFacts.

Import Num NumFacts.
Local Open Scope Q_scope.

Lemma round_half_even_ge (x : Q) (k : Z) :
  inject_Z k <= x -> (k <= round_half_even x)%Z.
Proof.
  intro H. apply Qfloor_resp_le in H. rewrite Qfloor_Z in H.
  unfold round_half_even.
  destruct (Qltb _ _); [lia|].
  destruct (Qltb _ _); [lia|].
  destruct (Z.even _); lia.
Qed.

Lemma round_half_even_le (x : Q) (k : Z) :
  x <= inject_Z k -> (round_half_even x <= k)%Z.
Proof.
  intro H.
  destruct (Qlt_le_dec x (inject_Z k)) as [L|G].
  - assert (F : (Qfloor x < k)%Z).
    { rewrite Zlt_Qlt. eapply Qle_lt_trans; [apply Qfloor_le | exact L]. }
    unfold round_half_even.
    destruct (Qltb _ _); [lia|].
    destruct (Qltb _ _); [lia|].
    destruct (Z.even _); lia.
  - rewrite (round_half_even_comp x (inject_Z k)).
    + rewrite round_half_even_Z. lia.
    + apply Qle_antisym; assumption.
Qed.

Lemma py_round_ge (x : Q) (n : nat) (k : Z) :
  inject_Z k / inject_Z (10 ^ Z.of_nat n) <= x ->
  inject_Z k / inject_Z (10 ^ Z.of_nat n) <= py_round x n.
Proof.
  intro H. unfold py_round.
  set (p := inject_Z (10 ^ Z.of_nat n)) in *.
  assert (Hp : 0 < p) by apply pow10_pos.
  apply Qmult_le_r with (z := p); trivial.
  assert (E : forall y, y / p * p == y) by (intro y; field; lra).
  rewrite !E. rewrite <- Zle_Qle. apply round_half_even_ge.
  rewrite <- (E (inject_Z k)). apply Qmult_le_r; trivial.
Qed.

Lemma py_round_le (x : Q) (n : nat) (k : Z) :
  x <= inject_Z k / inject_Z (10 ^ Z.of_nat n) ->
  py_round x n <= inject_Z k / inject_Z (10 ^ Z.of_nat n).
Proof.
  intro H. unfold py_round.
  set (p := inject_Z (10 ^ Z.of_nat n)) in *.
  assert (Hp : 0 < p) by apply pow10_pos.
  apply Qmult_le_r with (z := p); trivial.
  assert (E : forall y, y / p * p == y) by (intro y; field; lra).
  rewrite !E. rewrite <- Zle_Qle. apply round_half_even_le.
  rewrite <- (E (inject_Z k)). apply Qmult_le_r; trivial.
Qed.

(** Rounding to three decimals keeps a value above [lo] thousandths and
    below [hi] thousandths. *)
Lemma round3_between (x : Q) (lo hi : Z) :
  inject_Z lo / 1000 <= x -> x <= inject_Z hi / 1000 ->
  inject_Z lo / 1000 <= py_round x 3 /\ py_round x 3 <= inject_Z hi / 1000.
Proof.
  intros L H. split.
  - exact (py_round_ge x 3 lo L).
  - exact (py_round_le x 3 hi H).
Qed.

Lemma round2_between (x : Q) (lo hi : Z) :
  inject_Z lo / 100 <= x -> x <= inject_Z hi / 100 ->
  inject_Z lo / 100 <= py_round x 2 /\ py_round x 2 <= inject_Z hi / 100.
Proof.
  intros L H. split.
  - exact (py_round_ge x 2 lo L).
  - exact (py_round_le x 2 hi H).
Qed.

(** The nearest integer is within one half. *)
Lemma round_half_even_near (x : Q) :
  x - (1 # 2) <= inject_Z (round_half_even x)
  /\ inject_Z (round_half_even x) <= x + (1 # 2).
Proof.
  pose proof (Qfloor_le x) as Fl. pose proof (Qlt_floor x) as Fh.
  rewrite inject_Z_plus in Fh. change (inject_Z 1) with 1 in Fh.
  unfold round_half_even.
  destruct (Qltb (x - inject_Z (Qfloor x)) (1 # 2)) eqn:A.
  - apply Qltb_lt in A. lra.
  - apply Qltb_ge in A.
    destruct (Qltb (1 # 2) (x - inject_Z (Qfloor x))) eqn:B.
    + rewrite inject_Z_plus. change (inject_Z 1) with 1. lra.
    + apply Qltb_ge in B.
      destruct (Z.even (Qfloor x)); rewrite ?inject_Z_plus;
        change (inject_Z 1) with 1; lra.
Qed.

(** Rounding to three decimals moves a value by half a thousandth at
    most. *)
Lemma round3_near (x : Q) :
  x - (1 # 2000) <= py_round x 3 /\ py_round x 3 <= x + (1 # 2000).
Proof.
  unfold py_round.
  change (inject_Z (10 ^ Z.of_nat 3)) with (1000 # 1).
  pose proof (round_half_even_near (x * (1000 # 1))) as [L U].
  set (z := inject_Z (round_half_even (x * (1000 # 1)))) in *.
  unfold Qdiv. change (/ (1000 # 1)) with (1 # 1000).
  split; lra.
Qed.

End RoundFacts.

(** ** More about the scorer: timestamps, exceptions, the clock, bounds *)

Module ScorerFacts.

Import Py Num Datetime Scoring Spec Terms NumFacts RoundFacts ComposerFacts.
Import StrFacts KeywordFacts TagFacts Examples MoreExamples.
Local Open Scope Q_scope.
Local Open Scope string_scope.

(** Splits the goal on every comparison made by [py_min] and [py_max]. *)
Ltac compare_cases :=
  unfold py_max, py_min;
  repeat match goal with
         | |- context [Qltb ?a ?b] =>
             let A := fresh "A" in
             destruct (Qltb a b) eqn:A;
             [apply Qltb_lt in A | apply Qltb_ge in A]
         | H : context [Qltb ?a ?b] |- _ =>
             let A := fresh "A" in
             destruct (Qltb a b) eqn:A;
             [apply Qltb_lt in A | apply Qltb_ge in A]
         end.

(** *** [_normalize_dt] *)

Lemma normalize_dt_cases (v : datetime) :
  _normalize_dt (Some v)
  = match tzinfo v with
    | None => Ok (Some {| wall := wall v; tzinfo := Some utc |})
    | Some off =>
        if in_range (wall v - off)
        then Ok (Some {| wall := wall v - off; tzinfo := Some utc |})
        else Raise OverflowError
    end.
Proof.
  unfold _normalize_dt, astimezone_utc, replace_tzinfo.
  destruct (tzinfo v) as [off|]; trivial.
  destruct (in_range (wall v - off)); trivial.
Qed.

(** X1: a timestamp of the years 1..9999 that [_normalize_dt] accepts comes
    back aware and in UTC, denotes the same instant, and is returned
    unchanged when normalized again. *)
Theorem normalize_dt_keeps_instant (v v' : datetime) :
  in_range (wall v) = true ->
  _normalize_dt (Some v) = Ok (Some v') ->
  normalized v'
  /\ instant v' = instant v
  /\ _normalize_dt (Some v') = Ok (Some v').
Proof.
  intros R. rewrite normalize_dt_cases.
  destruct (tzinfo v) as [off|] eqn:T.
  - destruct (in_range (wall v - off)) eqn:I; [|discriminate].
    intro E. injection E as <-.
    repeat split.
    + unfold instant. simpl. rewrite T. unfold utc. lia.
    + rewrite normalize_dt_cases. simpl. unfold utc.
      now rewrite Z.sub_0_r, I.
  - intro E. injection E as <-.
    repeat split.
    + unfold instant. simpl. now rewrite T.
    + rewrite normalize_dt_cases. simpl. unfold utc.
      now rewrite Z.sub_0_r, R.
Qed.

Lemma normalize_dt_keeps_instant_witness :
  in_range (wall first_working_day) = true
  /\ _normalize_dt (Some first_working_day)
     = Ok (Some {| wall := new_year_2024 + day + 7 * hour;
                   tzinfo := Some utc |})
  /\ instant {| wall := new_year_2024 + day + 7 * hour; tzinfo := Some utc |}
     = instant first_working_day.
Proof.
  split; [reflexivity|]. split; [reflexivity|].
  apply (normalize_dt_keeps_instant first_working_day
           {| wall := new_year_2024 + day + 7 * hour; tzinfo := Some utc |});
    reflexivity.
Defined.

(** X2: [_normalize_dt] accepts every absent or naive timestamp, and every
    aware one from 0001-01-02 to 9999-12-30 whose offset is shorter than a
    day; it raises nothing but [OverflowError]. *)
Theorem normalize_dt_safe_zone (value : option datetime) :
  (forall v off,
      value = Some v -> tzinfo v = Some off ->
      (- day < off < day)%Z /\ (day <= wall v < WALL_END - day)%Z) ->
  (exists r, _normalize_dt value = Ok r)
  /\ (forall any e, _normalize_dt any = Raise e -> e = OverflowError).
Proof.
  intro S. split.
  - destruct value as [v|]; [|now exists None].
    rewrite normalize_dt_cases.
    destruct (tzinfo v) as [off|] eqn:T; [|eexists; reflexivity].
    destruct (S v off eq_refl T) as [O W].
    replace (in_range (wall v - off)) with true; [eexists; reflexivity|].
    symmetry. unfold in_range. apply andb_true_iff. split.
    + apply Z.leb_le. lia.
    + apply Z.ltb_lt. lia.
  - intros [v|] e; [|discriminate].
    rewrite normalize_dt_cases.
    destruct (tzinfo v) as [off|]; [|discriminate].
    destruct (in_range (wall v - off)); [discriminate|].
    now intros [= <-].
Qed.

Lemma normalize_dt_safe_zone_witness :
  exists r, _normalize_dt (Some first_working_day) = Ok r.
Proof.
  apply (normalize_dt_safe_zone (Some first_working_day)).
  intros v off [= <-] [= <-]. vm_compute. repeat split; discriminate.
Defined.

(** *** Exceptions *)

Lemma converts_to_utc_false (value : option datetime) :
  converts_to_utc value = false ->
  _normalize_dt value = Raise OverflowError.
Proof.
  destruct value as [v|]; [|discriminate].
  rewrite normalize_dt_cases. simpl.
  destruct (tzinfo v) as [off|]; [|discriminate].
  now intros ->.
Qed.

Lemma converts_to_utc_true (value : option datetime) (r : option datetime) :
  _normalize_dt value = Ok r -> converts_to_utc value = true.
Proof.
  destruct (converts_to_utc value) eqn:E; trivial.
  rewrite (converts_to_utc_false value E). discriminate.
Qed.

(** X3: [priority_score] raises exactly when one of the two timestamps has
    no UTC equivalent in the range of [datetime], and then it raises
    [OverflowError]: the [TypeError] that [_age_bonus] and [_due_date_bonus]
    raise on a naive timestamp never leaves [priority_score]. *)
Theorem priority_score_raises_only_overflow (f : TodoFeatures) (c : Clock) :
  (forall e, priority_score f c = Raise e -> e = OverflowError)
  /\ (priority_score f c = Raise OverflowError
      <-> converts_to_utc (created_at f) && converts_to_utc (due_date f)
          = false)
  /\ (forall d, tzinfo d = None ->
                _age_bonus (Some d) c = Raise TypeError
                /\ _due_date_bonus (Some d) c = Raise TypeError).
Proof.
  assert (A : converts_to_utc (created_at f) && converts_to_utc (due_date f)
              = false ->
              priority_score f c = Raise OverflowError).
  { intro H. unfold priority_score, bind, lift.
    destruct (converts_to_utc (created_at f)) eqn:Hc.
    - simpl in H.
      destruct (normalize_dt_ok _ Hc) as (created & Ec & Nc).
      destruct (age_bonus_returns created c Nc) as (age & Ea).
      rewrite Ec, Ea, (converts_to_utc_false _ H). reflexivity.
    - now rewrite (converts_to_utc_false _ Hc). }
  assert (B : converts_to_utc (created_at f) && converts_to_utc (due_date f)
              = true ->
              exists s c', priority_score f c = Ok (s, c')).
  { intro H. apply andb_true_iff in H as [Hc Hd].
    destruct (priority_score_returns f c Hc Hd) as (t & c' & _ & E & _).
    eauto. }
  assert (T : forall d, tzinfo d = None ->
                _age_bonus (Some d) c = Raise TypeError
                /\ _due_date_bonus (Some d) c = Raise TypeError).
  { intros d T.
    unfold _age_bonus, _due_date_bonus, bind, now_utc, lift, sub; simpl.
    now rewrite T. }
  destruct (converts_to_utc (created_at f) && converts_to_utc (due_date f))
    eqn:V.
  - destruct (B eq_refl) as (s & c' & E). rewrite E.
    split; [discriminate|]. split; [split; discriminate | exact T].
  - rewrite (A eq_refl).
    split; [congruence|]. split; [split; trivial | exact T].
Qed.

Lemma priority_score_raises_only_overflow_witness :
  tzinfo {| wall := new_year_2024; tzinfo := None |} = None
  /\ _age_bonus (Some {| wall := new_year_2024; tzinfo := None |})
       (fixed_clock new_year_2024)
     = Raise TypeError.
Proof.
  split; [reflexivity|].
  apply (priority_score_raises_only_overflow far_past
           (fixed_clock new_year_2024)).
  reflexivity.
Defined.

(** *** The clock *)

Lemma ticks_tick (n : nat) (c : Clock) : ticks n (tick c) = ticks (S n) c.
Proof.
  unfold ticks, tick. simpl. f_equal. lia.
Qed.

Lemma ticks_zero (c : Clock) : ticks 0 c = c.
Proof.
  now destruct c.
Qed.

Lemma normalize_dt_present (value r : option datetime) :
  _normalize_dt value = Ok r -> present r = present value.
Proof.
  destruct value as [v|].
  - rewrite normalize_dt_cases.
    destruct (tzinfo v) as [off|].
    + destruct (in_range _); [|discriminate]. now intros [= <-].
    + now intros [= <-].
  - now intros [= <-].
Qed.

Lemma age_bonus_clock (created : option datetime) (c c' : Clock) (q : Q) :
  _age_bonus created c = Ok (q, c') ->
  c' = ticks (present created) c /\ 0 <= q /\ q <= 0.2.
Proof.
  destruct created as [d|]; simpl.
  - unfold bind, now_utc, lift, sub. simpl.
    destruct (tzinfo d); [|discriminate].
    repeat match goal with
           | |- context [if ?b then _ else _] => destruct b
           end;
      unfold ret; intros [= <- <-]; repeat split; trivial; discriminate.
  - unfold ret. intros [= <- <-]. rewrite ticks_zero.
    repeat split; discriminate.
Qed.

Lemma due_date_bonus_clock (due : option datetime) (c c' : Clock) (q : Q) :
  _due_date_bonus due c = Ok (q, c') ->
  c' = ticks (present due) c /\ 0 <= q /\ q <= 0.3.
Proof.
  destruct due as [d|]; simpl.
  - unfold bind, now_utc, lift, sub. simpl.
    destruct (tzinfo d); [|discriminate].
    repeat match goal with
           | |- context [if ?b then _ else _] => destruct b
           end;
      unfold ret; intros [= <- <-]; repeat split; trivial; discriminate.
  - unfold ret. intros [= <- <-]. rewrite ticks_zero.
    repeat split; discriminate.
Qed.

(** What a returning run of [score_before_completion] went through. *)
Lemma score_before_completion_inv (f : TodoFeatures) (c c' : Clock)
    (total : Q) :
  score_before_completion f c = Ok (total, c') ->
  exists age due_bonus,
    total = 0.35 + _keyword_bonus (title f) + _tag_bonus (tags f)
            + age + due_bonus
    /\ 0 <= age /\ age <= 0.2 /\ 0 <= due_bonus /\ due_bonus <= 0.3
    /\ c' = ticks (present (created_at f) + present (due_date f)) c.
Proof.
  unfold score_before_completion, bind, lift, ret.
  destruct (_normalize_dt (created_at f)) as [created|] eqn:Nc; [|discriminate].
  destruct (_age_bonus created c) as [[age c1]|] eqn:A; [|discriminate].
  destruct (_normalize_dt (due_date f)) as [due|] eqn:Nd; [|discriminate].
  destruct (_due_date_bonus due c1) as [[db c2]|] eqn:D; [|discriminate].
  intros [= <- <-].
  apply age_bonus_clock in A as (C1 & A0 & A1).
  apply due_date_bonus_clock in D as (C2 & D0 & D1).
  exists age, db. repeat split; trivial.
  rewrite C2, C1, (normalize_dt_present _ _ Nc), (normalize_dt_present _ _ Nd).
  unfold ticks. simpl. f_equal. lia.
Qed.

Lemma priority_score_inv (f : TodoFeatures) (c c' : Clock) (s : Q) :
  priority_score f c = Ok (s, c') ->
  exists total,
    score_before_completion f c = Ok (total, c')
    /\ s = finish (completed f) total.
Proof.
  rewrite priority_score_split. unfold bind, ret.
  destruct (score_before_completion f c) as [[total c1]|]; [|discriminate].
  intros [= <- <-]. now exists total.
Qed.

(** X4: a returning [priority_score] has read the clock once for each
    timestamp that is present, so between none and two times, and has not
    changed what the clock shows. *)
Theorem priority_score_reads_clock_per_timestamp (f : TodoFeatures)
    (c c' : Clock) (s : Q) :
  priority_score f c = Ok (s, c') ->
  c' = ticks (present (created_at f) + present (due_date f)) c.
Proof.
  intro E. apply priority_score_inv in E as (total & E & _).
  apply score_before_completion_inv in E as (_ & _ & _ & _ & _ & _ & _ & C).
  exact C.
Qed.

Lemma priority_score_reads_clock_per_timestamp_witness :
  priority_score urgent_call_done (fixed_clock new_year_2024)
  = Ok (0.750, ticks 2 (fixed_clock new_year_2024))
  /\ ticks 2 (fixed_clock new_year_2024)
     = ticks (present (created_at urgent_call_done)
              + present (due_date urgent_call_done))
         (fixed_clock new_year_2024).
Proof.
  split; [reflexivity|].
  apply (priority_score_reads_clock_per_timestamp urgent_call_done
           (fixed_clock new_year_2024) _ 0.750).
  reflexivity.
Defined.


(** *** Bounds *)

Lemma weight_if_bounds (b : bool) (w : Q) :
  0 <= w -> 0 <= weight_if b w /\ weight_if b w <= w.
Proof.
  intro W. destruct b; simpl; split; trivial; apply Qle_refl.
Qed.

Lemma keyword_sum_nonneg (title : string) :
  0 <= keyword_sum title + long_title title.
Proof.
  unfold keyword_sum, long_title.
  repeat match goal with
         | |- context [weight_if ?b ?w] =>
             let H := fresh "H" in
             assert (H : 0 <= weight_if b w)
               by (apply weight_if_bounds; discriminate);
             generalize dependent (weight_if b w); intros
         end.
  lra.
Qed.

Lemma keyword_bonus_bounds (title : string) :
  0 <= _keyword_bonus title /\ _keyword_bonus title <= 0.45.
Proof.
  rewrite keyword_bonus_spec. split.
  - apply Q.min_glb; [discriminate | apply keyword_sum_nonneg].
  - apply Q.le_min_l.
Qed.

Lemma tag_weight_pos (raw : string) : 0.03 <= tag_weight raw.
Proof.
  unfold tag_weight.
  repeat match goal with
         | |- context [String.eqb ?a ?b] => destruct (String.eqb a b)
         end; discriminate.
Qed.

Lemma tag_sum_nonneg (tags : list string) : 0 <= tag_sum tags.
Proof.
  induction tags as [|raw tags IH]; simpl; [discriminate|].
  pose proof (tag_weight_pos raw). lra.
Qed.

Lemma tag_sum_app (tags more : list string) :
  tag_sum (tags ++ more) == tag_sum tags + tag_sum more.
Proof.
  induction tags as [|raw tags IH]; simpl; [ring | rewrite IH; ring].
Qed.

Lemma tag_bonus_bounds (tags : list string) :
  0 <= _tag_bonus tags /\ _tag_bonus tags <= 0.25.
Proof.
  rewrite tag_bonus_spec. split.
  - apply Q.min_glb; [apply tag_sum_nonneg | discriminate].
  - apply Q.le_min_r.
Qed.

(** X5: when the bonuses are computed, the running total of
    [priority_score] before the completion penalty lies between the base
    score 0.35 and 1.55: the keyword bonus is between 0 and 0.45 and the tag
    bonus between 0 and 0.25, and the age and due-date bonuses are at most
    0.2 and 0.3. *)
Theorem total_between_base_and_all_caps (f : TodoFeatures) (c c' : Clock)
    (total : Q) :
  score_before_completion f c = Ok (total, c') ->
  0.35 <= total /\ total <= 1.55
  /\ 0 <= _keyword_bonus (title f) /\ _keyword_bonus (title f) <= 0.45
  /\ 0 <= _tag_bonus (tags f) /\ _tag_bonus (tags f) <= 0.25.
Proof.
  intro E.
  apply score_before_completion_inv in E
    as (age & db & -> & A0 & A1 & D0 & D1 & _).
  pose proof (keyword_bonus_bounds (title f)) as [K0 K1].
  pose proof (tag_bonus_bounds (tags f)) as [T0 T1].
  repeat split; trivial; lra.
Qed.

Lemma total_between_base_and_all_caps_witness :
  exists total c',
    score_before_completion urgent_call_done (fixed_clock new_year_2024)
    = Ok (total, c')
    /\ 0.35 <= total /\ total <= 1.55.
Proof.
  eexists; eexists. split; [lazy; reflexivity|].
  destruct (total_between_base_and_all_caps urgent_call_done
              (fixed_clock new_year_2024) _ _ eq_refl) as (L & U & _).
  split; [exact L | exact U].
Defined.

(** X6: an item that is not completed never scores below the base score
    0.35, and a completed item never scores above 0.95. *)
Theorem open_floor_and_completed_ceiling (f : TodoFeatures) (c c' : Clock)
    (s : Q) :
  priority_score f c = Ok (s, c') ->
  (completed f = false -> 0.35 <= s)
  /\ (completed f = true -> s <= 0.95).
Proof.
  intro E. apply priority_score_inv in E as (total & E & ->).
  apply score_before_completion_inv in E
    as (age & db & -> & A0 & A1 & D0 & D1 & _).
  pose proof (keyword_bonus_bounds (title f)) as [K0 K1].
  pose proof (tag_bonus_bounds (tags f)) as [T0 T1].
  set (total := 0.35 + _ + _ + age + db) in *.
  unfold finish. split; intros ->; cbv iota.
  - assert (L : (350 # 1000) <= py_round total 3).
    { apply (py_round_ge total 3 350).
      change (inject_Z 350 / inject_Z (10 ^ Z.of_nat 3)) with (350 # 1000).
      unfold total. lra. }
    generalize dependent (py_round total 3). intros r L.
    compare_cases; lra.
  - assert (U : py_round (total - 0.6) 3 <= (950 # 1000)).
    { apply (py_round_le (total - 0.6) 3 950).
      change (inject_Z 950 / inject_Z (10 ^ Z.of_nat 3)) with (950 # 1000).
      unfold total. lra. }
    generalize dependent (py_round (total - 0.6) 3). intros r U.
    compare_cases; lra.
Qed.

Lemma open_floor_and_completed_ceiling_witness :
  priority_score urgent_call_done (fixed_clock new_year_2024)
  = Ok (0.750, ticks 2 (fixed_clock new_year_2024))
  /\ (completed urgent_call_done = true -> 0.750 <= 0.95).
Proof.
  split; [reflexivity|].
  apply (open_floor_and_completed_ceiling urgent_call_done
           (fixed_clock new_year_2024) (ticks 2 (fixed_clock new_year_2024))).
  reflexivity.
Defined.

(** X7: on the same state of the clock, the item marked completed gets a
    score strictly below the score of the item left open, and not more
    than 0.601 below it (the penalty and the rounding of the third
    decimal). *)
Theorem completing_lowers_the_score (f : TodoFeatures) (c c' : Clock)
    (s_open : Q) :
  priority_score (with_completed f false) c = Ok (s_open, c') ->
  exists s_done,
    priority_score (with_completed f true) c = Ok (s_done, c')
    /\ s_done < s_open /\ s_open - 0.601 <= s_done.
Proof.
  intro E. apply priority_score_inv in E as (total & E & ->).
  exists (finish true total). split.
  - rewrite priority_score_split. unfold bind.
    change (score_before_completion (with_completed f true) c)
      with (score_before_completion (with_completed f false) c).
    now rewrite E.
  - apply score_before_completion_inv in E
      as (age & db & -> & A0 & A1 & D0 & D1 & _).
    pose proof (keyword_bonus_bounds (title (with_completed f false)))
      as [K0 K1].
    pose proof (tag_bonus_bounds (tags (with_completed f false))) as [T0 T1].
    set (total := 0.35 + _ + _ + age + db) in *.
    assert (L : 0.35 <= total /\ total <= 1.55) by (unfold total; lra).
    clearbody total. simpl. unfold finish.
    pose proof (round3_near total) as [N0 N1].
    pose proof (round3_near (total - 0.6)) as [P0 P1].
    generalize dependent (py_round (total - 0.6) 3). intros r P0 P1.
    generalize dependent (py_round total 3). intros r' N0 N1.
    compare_cases; lra.
Qed.

Lemma completing_lowers_the_score_witness :
  exists s_done,
    priority_score (with_completed urgent_call_done true)
      (fixed_clock new_year_2024)
    = Ok (s_done, ticks 2 (fixed_clock new_year_2024))
    /\ s_done < 1.0 /\ 1.0 - 0.601 <= s_done.
Proof.
  apply (completing_lowers_the_score urgent_call_done
           (fixed_clock new_year_2024)).
  reflexivity.
Defined.


(** *** What the score does not depend on *)

Lemma finish_comp (b : bool) (t t' : Q) :
  t == t' -> finish b t == finish b t'.
Proof.
  intro E. unfold finish.
  rewrite !py_max_Qmax, !py_min_Qmin.
  apply Q.max_compat; [reflexivity|].
  apply Q.min_compat; [reflexivity|].
  apply py_round_comp. destruct b; rewrite E; reflexivity.
Qed.

Lemma tag_sum_permutation (tags tags' : list string) :
  Permutation tags tags' -> tag_sum tags == tag_sum tags'.
Proof.
  induction 1 as [|x l l' _ IH|x y l|l l' l'' _ IH1 _ IH2]; simpl.
  - reflexivity.
  - now rewrite IH.
  - ring.
  - now rewrite IH1.
Qed.

(** X8: the order of the tags does not matter: with the tags in any other
    order [priority_score] ends the same way, with an equal score. *)
Theorem score_ignores_tag_order (f : TodoFeatures) (tags tags' : list string)
    (c : Clock) :
  Permutation tags tags' ->
  same_outcome (priority_score (with_tags f tags) c)
               (priority_score (with_tags f tags') c).
Proof.
  intro P.
  assert (T : _tag_bonus tags == _tag_bonus tags').
  { rewrite !tag_bonus_spec.
    apply Q.min_compat; [|exact eq_refl]. now apply tag_sum_permutation. }
  rewrite !priority_score_split.
  unfold score_before_completion, with_tags, bind, lift, ret.
  cbn [title completed created_at due_date Scoring.tags].
  destruct (_normalize_dt (created_at f)) as [created|e]; [|exact eq_refl].
  destruct (_age_bonus created c) as [[age c1]|e]; [|exact eq_refl].
  destruct (_normalize_dt (due_date f)) as [due|e]; [|exact eq_refl].
  destruct (_due_date_bonus due c1) as [[db c2]|e]; [|exact eq_refl].
  simpl. split; trivial.
  apply finish_comp. now rewrite T.
Qed.

Lemma score_ignores_tag_order_witness :
  Permutation ["bug"; "home"; "x"] ["x"; "bug"; "home"]
  /\ same_outcome
       (priority_score (with_tags urgent_call_done ["bug"; "home"; "x"])
          (fixed_clock new_year_2024))
       (priority_score (with_tags urgent_call_done ["x"; "bug"; "home"])
          (fixed_clock new_year_2024)).
Proof.
  assert (P : Permutation ["bug"; "home"; "x"] ["x"; "bug"; "home"]).
  { apply Permutation_sym. apply (Permutation_cons_app ["bug"; "home"] []).
    rewrite app_nil_r. apply Permutation_refl. }
  split; [exact P|].
  apply (score_ignores_tag_order urgent_call_done _ _
           (fixed_clock new_year_2024) P).
Defined.

Lemma keyword_bonus_lower (title : string) :
  _keyword_bonus (Str.lower title) = _keyword_bonus title.
Proof.
  unfold _keyword_bonus. now rewrite StrFacts.lower_idem.
Qed.

Lemma tag_loop_keys (tags : list string) (acc : Q) :
  fold_left
    (fun bonus raw =>
       let tag := Str.strip (Str.lower raw) in
       bonus + dict_get TAG_WEIGHTS tag 0.03)
    (map tag_key tags) acc
  = fold_left
      (fun bonus raw =>
         let tag := Str.strip (Str.lower raw) in
         bonus + dict_get TAG_WEIGHTS tag 0.03)
      tags acc.
Proof.
  revert acc. induction tags as [|raw tags IH]; intro acc; trivial.
  cbn [map fold_left]. rewrite IH. cbv zeta.
  fold (tag_key (tag_key raw)). fold (tag_key raw).
  now rewrite tag_key_idem.
Qed.

Lemma tag_bonus_keys (tags : list string) :
  _tag_bonus (map tag_key tags) = _tag_bonus tags.
Proof.
  destruct tags as [|raw tags]; trivial.
  unfold _tag_bonus. cbn [map]. cbv zeta.
  change (tag_key raw :: map tag_key tags) with (map tag_key (raw :: tags)).
  now rewrite tag_loop_keys.
Qed.

(** X9: letter case in the title and in the tags, and blanks around a tag,
    do not matter: the item with its title lower-cased and its tags
    lower-cased and trimmed gets the same result from [priority_score]. *)
Theorem score_ignores_case_and_tag_blanks (f : TodoFeatures) (c : Clock) :
  priority_score (folded f) c = priority_score f c.
Proof.
  unfold priority_score, folded.
  cbn [title completed created_at due_date Scoring.tags].
  now rewrite keyword_bonus_lower, tag_bonus_keys.
Qed.

(** *** Keywords inside longer words, and more tags *)

Lemma matches_anywhere (kw u a b : string) :
  Str.lower u = kw -> matches kw (a ++ u ++ b)%string = true.
Proof.
  intros <-. unfold matches.
  rewrite !lower_app. apply contains_app.
Qed.

(** X10: a keyword that occurs anywhere in the title, inside a longer word
    or not and in any letter case, earns at least its weight, up to the cap
    of 0.45. *)
Theorem keyword_counts_wherever_it_occurs (kw u a b : string) :
  In kw keywords ->
  Str.lower u = kw ->
  Qmin 0.45 (keyword_weight kw) <= _keyword_bonus (a ++ u ++ b)%string.
Proof.
  intros K L.
  pose proof (matches_anywhere kw u a b L) as M.
  rewrite keyword_bonus_spec. apply Q.min_le_compat_l.
  set (t := (a ++ u ++ b)%string) in *.
  unfold keyword_sum, long_title.
  pose proof (weight_if_bounds (matches "urgent" t) 0.35) as [? _];
    [discriminate|].
  pose proof (weight_if_bounds (matches "asap" t) 0.30) as [? _];
    [discriminate|].
  pose proof (weight_if_bounds (matches "important" t) 0.25) as [? _];
    [discriminate|].
  pose proof (weight_if_bounds (matches "today" t) 0.20) as [? _];
    [discriminate|].
  pose proof (weight_if_bounds (matches "tomorrow" t) 0.15) as [? _];
    [discriminate|].
  pose proof (weight_if_bounds (matches "email" t) 0.05) as [? _];
    [discriminate|].
  pose proof (weight_if_bounds (matches "call" t) 0.05) as [? _];
    [discriminate|].
  pose proof (weight_if_bounds (is_long t) 0.05) as [? _];
    [discriminate|].
  simpl in K.
  repeat (destruct K as [<-|K];
          [rewrite M in *; unfold keyword_weight; simpl dict_get;
           cbn [weight_if] in *; lra|]).
  contradiction.
Qed.

Lemma keyword_counts_wherever_it_occurs_witness :
  In "call" keywords
  /\ Str.lower "CALL" = "call"%string
  /\ Qmin 0.45 (keyword_weight "call")
     <= _keyword_bonus ("re" ++ "CALL" ++ "ed the printer")%string.
Proof.
  split; [simpl; tauto|]. split; [reflexivity|].
  apply (keyword_counts_wherever_it_occurs "call" "CALL" "re" "ed the printer");
    [simpl; tauto | reflexivity].
Defined.

(** X11: more tags never lower the tag bonus, and unknown tags count too:
    nine tags of any kind reach the cap of 0.25. *)
Theorem more_tags_never_lower_the_bonus (tags more : list string) :
  _tag_bonus tags <= _tag_bonus (tags ++ more)
  /\ ((9 <= List.length tags)%nat -> _tag_bonus tags == 0.25).
Proof.
  rewrite !tag_bonus_spec. split.
  - apply Q.min_le_compat_r. rewrite tag_sum_app.
    pose proof (tag_sum_nonneg more). lra.
  - intro N. apply Q.min_r.
    assert (G : forall l, 0.03 * inject_Z (Z.of_nat (List.length l))
                           <= tag_sum l).
    { induction l as [|x l IH]; [discriminate|].
      cbn [List.length tag_sum]. rewrite Nat2Z.inj_succ. unfold Z.succ.
      rewrite inject_Z_plus. pose proof (tag_weight_pos x).
      change (inject_Z 1) with 1. lra. }
    specialize (G tags).
    assert (9 <= inject_Z (Z.of_nat (List.length tags))).
    { change 9 with (inject_Z 9). rewrite <- Zle_Qle. lia. }
    lra.
Qed.

Lemma more_tags_never_lower_the_bonus_witness :
  (9 <= List.length ["a"; "b"; "c"; "d"; "e"; "f"; "g"; "h"; "i"])%nat
  /\ _tag_bonus ["a"; "b"; "c"; "d"; "e"; "f"; "g"; "h"; "i"]%string == 0.25.
Proof.
  split; [simpl; lia|].
  apply (more_tags_never_lower_the_bonus
           ["a"; "b"; "c"; "d"; "e"; "f"; "g"; "h"; "i"]%string []).
  simpl; lia.
Defined.

End ScorerFacts.

(** ** More about the tag validator and the handler *)

Module ValidatorFacts.

Import Py Num Datetime Main Spec Terms NumFacts ComposerFacts HandlerFacts.
Import StrFacts ScorerFacts Examples MoreExamples.
Local Open Scope string_scope.

Lemma renormalized_eq (tags : list string) :
  renormalized tags
  = map Str.strip (filter (fun t => negb (Str.is_empty t)) tags).
Proof.
  unfold renormalized, as_raw. rewrite normalize_tags_seq.
  induction tags as [|t tags IH]; trivial.
  cbn [map filter truthy]. destruct (negb (Str.is_empty t)); cbn [map str].
  - now rewrite IH.
  - exact IH.
Qed.

Lemma filter_length_le {A : Type} (p : A -> bool) (l : list A) :
  (List.length (filter p l) <= List.length l)%nat.
Proof.
  induction l as [|x l IH]; simpl; [lia|].
  destruct (p x); simpl; lia.
Qed.

(** X12: on a sequence, [normalize_tags] keeps the truthy entries (it drops
    [None], the empty string, 0 and [False]) in their order and with their
    repetitions, turns each into text and trims it; so every token it
    returns is trimmed, and there are no more tokens than entries. *)
Theorem normalize_tags_on_a_sequence (items : list pyval) :
  normalize_tags (RawSeq items)
  = map (fun item => Str.strip (str item)) (filter truthy items)
  /\ Forall (fun token => Str.strip token = token)
       (normalize_tags (RawSeq items))
  /\ (List.length (normalize_tags (RawSeq items)) <= List.length items)%nat
  /\ map truthy [PyNone; PyStr ""; PyInt 0; PyBool false] = [false; false; false; false].
Proof.
  rewrite normalize_tags_seq. repeat split.
  - apply Forall_forall. intros token H.
    apply in_map_iff in H as (item & <- & _). apply strip_idem.
  - rewrite length_map. apply filter_length_le.
Qed.

(** X13: the validator reaches clean tokens in two passes at most.  Of any
    list of strings it makes trimmed tokens; of its own output it makes
    trimmed, non-empty tokens; and those it returns unchanged. *)
Theorem validator_settles_in_two_passes (tags : list string) :
  Forall (fun token => Str.strip token = token) (renormalized tags)
  /\ forallb clean_tag (renormalized (renormalized tags)) = true
  /\ renormalized (renormalized (renormalized tags))
     = renormalized (renormalized tags).
Proof.
  assert (T : Forall (fun token => Str.strip token = token)
                (renormalized tags)).
  { rewrite renormalized_eq. apply Forall_forall. intros token H.
    apply in_map_iff in H as (t & <- & _). apply strip_idem. }
  assert (C : forallb clean_tag (renormalized (renormalized tags)) = true).
  { rewrite (renormalized_eq (renormalized tags)).
    induction T as [|t l Ht _ IH]; trivial.
    cbn [filter]. destruct (Str.is_empty t) eqn:E; cbn [negb map forallb].
    - exact IH.
    - rewrite IH, andb_true_r. unfold clean_tag.
      rewrite !Ht, E. simpl. apply String.eqb_refl. }
  repeat split; trivial.
  unfold renormalized at 1. now apply normalize_clean_tags.
Qed.

Lemma check_fields_renormalized (title : string) (tags : list string) :
  check_fields title tags = true ->
  check_fields title (renormalized tags) = true.
Proof.
  unfold check_fields. intro H.
  apply andb_true_iff in H as [H1 H2]. rewrite H1. simpl.
  apply Z.leb_le in H2. apply Z.leb_le.
  rewrite renormalized_eq, length_map.
  pose proof (filter_length_le (fun t => negb (Str.is_empty t)) tags). lia.
Qed.

Lemma score_result_init_rescored (todo : TodoPayload.t) (s : Q) :
  fields_ok todo = true ->
  ScoreResult.init (TodoPayload.title todo) (TodoPayload.completed todo)
    (TodoPayload.created_at todo) (TodoPayload.due_date todo)
    (as_raw (TodoPayload.tags todo)) s
  = Ok (rescored todo s).
Proof.
  intro F. unfold ScoreResult.init. cbv zeta.
  fold (renormalized (TodoPayload.tags todo)).
  now rewrite (check_fields_renormalized _ _ F).
Qed.

Lemma scored_record_readings (c c' : Clock) (todo : TodoPayload.t)
    (r : ScoreResult.t) :
  readings c' = readings c -> scored_record c' todo r -> scored_record c todo r.
Proof.
  unfold scored_record. intros R (E & n & c2 & P).
  split; trivial. exists n, c2. now rewrite <- R.
Qed.

Lemma score_loop_rescores (todos : list TodoPayload.t)
    (acc : list ScoreResult.t) (c : Clock) :
  forallb fields_ok todos = true ->
  forallb convertible todos = true ->
  exists rs c',
    score_loop todos acc c = Ok ((acc ++ rs)%list, c')
    /\ readings c' = readings c
    /\ Forall2 (scored_record c) todos rs.
Proof.
  revert acc c.
  induction todos as [|todo todos IH]; intros acc c F V.
  - exists [], c. rewrite app_nil_r. repeat split; constructor.
  - cbn [forallb] in F, V.
    apply andb_true_iff in F as [F1 F2].
    apply andb_true_iff in V as [V1 V2].
    unfold convertible in V1. apply andb_true_iff in V1 as [Hc Hd].
    destruct (priority_score_returns (features_of todo) c Hc Hd)
      as (total & c1 & _ & P & R1).
    set (s := finish (Scoring.completed (features_of todo)) total) in P.
    destruct (IH (acc ++ [rescored todo s])%list c1 F2 V2)
      as (rs & c2 & L & R2 & A).
    exists (rescored todo s :: rs), c2.
    split; [|split].
    + cbn [score_loop]. unfold bind at 1. fold (features_of todo).
      rewrite P. unfold bind at 1, lift.
      rewrite score_result_init_rescored by trivial.
      rewrite L. now rewrite <- app_assoc.
    + congruence.
    + constructor.
      * split; [reflexivity|].
        exists (reads c), c1. destruct c; exact P.
      * eapply Forall2_impl; [|exact A].
        intros t r. now apply scored_record_readings.
Qed.

(** X14: for every non-empty batch of records that meet the declared field
    constraints and whose timestamps convert to UTC, whatever their tags,
    the handler returns one result per record in the order of the batch;
    each result has the fields of its record, except that its tags are the
    record's tags passed through the validator once more, and it carries
    the score that [priority_score] computes from the record's own tags. *)
Theorem score_revalidates_tags (todos : list TodoPayload.t) (c : Clock) :
  todos <> [] ->
  forallb fields_ok todos = true ->
  forallb convertible todos = true ->
  exists rs c',
    score todos c = Ok ({| results := rs |}, c')
    /\ List.length rs = List.length todos
    /\ Forall2 (scored_record c) todos rs.
Proof.
  intros N F V.
  destruct (score_loop_rescores todos [] c F V) as (rs & c' & L & _ & A).
  exists rs, c'. repeat split; trivial.
  - unfold score. destruct todos as [|t todos]; [contradiction|].
    cbn [List.length]. rewrite Nat2Z.inj_succ.
    destruct (Z.eqb_spec (Z.succ (Z.of_nat (List.length todos))) 0); [lia|].
    unfold bind, ret. now rewrite L.
  - symmetry. eapply Forall2_length; eauto.
Qed.

Lemma score_revalidates_tags_witness :
  exists rs c',
    score [blank_tag; untrimmed_tag] (fixed_clock new_year_2024)
    = Ok ({| results := rs |}, c')
    /\ List.length rs = List.length [blank_tag; untrimmed_tag]
    /\ Forall2 (scored_record (fixed_clock new_year_2024))
         [blank_tag; untrimmed_tag] rs.
Proof.
  apply (score_revalidates_tags [blank_tag; untrimmed_tag]
           (fixed_clock new_year_2024));
    [discriminate | reflexivity | reflexivity].
Defined.

Lemma priority_score_overflow (f : Scoring.TodoFeatures) (c : Clock) :
  converts_to_utc (Scoring.created_at f)
  && converts_to_utc (Scoring.due_date f) = false ->
  Scoring.priority_score f c = Raise OverflowError.
Proof.
  intro H. unfold Scoring.priority_score, bind, lift.
  destruct (converts_to_utc (Scoring.created_at f)) eqn:Hc.
  - simpl in H.
    destruct (normalize_dt_ok _ Hc) as (created & Ec & Nc).
    destruct (age_bonus_returns created c Nc) as (age & Ea).
    rewrite Ec, Ea, (converts_to_utc_false _ H). reflexivity.
  - now rewrite (converts_to_utc_false _ Hc).
Qed.

Lemma score_loop_overflow (todos : list TodoPayload.t)
    (acc : list ScoreResult.t) (c : Clock) :
  forallb fields_ok todos = true ->
  forallb convertible todos = false ->
  score_loop todos acc c = Raise OverflowError.
Proof.
  revert acc c.
  induction todos as [|todo todos IH]; intros acc c F V; [discriminate|].
  cbn [forallb] in F, V.
  apply andb_true_iff in F as [F1 F2].
  cbn [score_loop]. unfold bind at 1. fold (features_of todo).
  destruct (convertible todo) eqn:V1.
  - simpl in V. unfold convertible in V1.
    apply andb_true_iff in V1 as [Hc Hd].
    destruct (priority_score_returns (features_of todo) c Hc Hd)
      as (total & c1 & _ & P & _).
    rewrite P. unfold bind at 1, lift.
    rewrite score_result_init_rescored by trivial.
    now apply IH.
  - now rewrite (priority_score_overflow (features_of todo) c V1).
Qed.

(** X15: the handler answers all or nothing.  It refuses the empty batch
    with [HTTPException(400)]; on a non-empty batch of records that meet the
    field constraints it raises exactly when some record has a timestamp
    with no UTC equivalent in the range of [datetime], the exception is
    [OverflowError], and no result is returned for any record. *)
Theorem score_is_all_or_nothing (todos : list TodoPayload.t) (c : Clock) :
  score [] c = Raise (HTTPException 400)
  /\ (todos <> [] ->
      forallb fields_ok todos = true ->
      (forallb convertible todos = false ->
       score todos c = Raise OverflowError)
      /\ (forallb convertible todos = true ->
          exists resp c', score todos c = Ok (resp, c'))).
Proof.
  split; [reflexivity|].
  intros N F.
  assert (S : score todos c
              = bind (score_loop todos [])
                  (fun rs => ret {| results := rs |}) c).
  { unfold score. destruct todos as [|t todos]; [contradiction|].
    cbn [List.length]. rewrite Nat2Z.inj_succ.
    destruct (Z.eqb_spec (Z.succ (Z.of_nat (List.length todos))) 0); [lia|].
    reflexivity. }
  rewrite S. unfold bind, ret. split; intro V.
  - now rewrite (score_loop_overflow todos [] c F V).
  - destruct (score_loop_rescores todos [] c F V) as (rs & c' & L & _).
    rewrite L. eauto.
Qed.

Lemma score_is_all_or_nothing_witness :
  [plain_note; far_past_record] <> []
  /\ forallb fields_ok [plain_note; far_past_record] = true
  /\ forallb convertible [plain_note; far_past_record] = false
  /\ score [plain_note; far_past_record] (fixed_clock new_year_2024)
     = Raise OverflowError.
Proof.
  split; [discriminate|]. split; [reflexivity|]. split; [reflexivity|].
  apply (score_is_all_or_nothing [plain_note; far_past_record]
           (fixed_clock new_year_2024));
    [discriminate | reflexivity | reflexivity].
Defined.

End ValidatorFacts.

(** ** The numbers of the random generator *)

Module RandomFacts.

Import Num Random NumFacts RoundFacts.
Local Open Scope Q_scope.

Lemma random_in_unit_interval (g : Rng) :
  0 <= fst (random g) /\ fst (random g) < 1.
Proof.
  unfold random. cbn [fst].
  set (k := (bits g (drawn g) mod 2 ^ 53)%Z).
  assert (K : (0 <= k < 2 ^ 53)%Z) by (apply Z.mod_pos_bound; lia).
  assert (P : 0 < inject_Z (2 ^ 53)).
  { change 0 with (inject_Z 0). rewrite <- Zlt_Qlt. lia. }
  split.
  - apply Qle_shift_div_l; trivial. rewrite Qmult_0_l.
    change 0 with (inject_Z 0). rewrite <- Zle_Qle. lia.
  - apply Qlt_shift_div_r; trivial. rewrite Qmult_1_l.
    rewrite <- Zlt_Qlt. lia.
Qed.

Lemma uniform_between (a b : Q) (g : Rng) :
  a <= b ->
  a <= fst (uniform a b g) /\ fst (uniform a b g) <= b
  /\ snd (uniform a b g) = next g.
Proof.
  intro H. unfold uniform.
  pose proof (random_in_unit_interval g) as [R0 R1].
  destruct (random g) as [r g'] eqn:E. cbn [fst snd] in *.
  assert (G : g' = next g) by (unfold random in E; now injection E).
  repeat split; trivial; nra.
Qed.

End RandomFacts.

(** ** airflow/dags/todo_ml_pipeline.py: the dataset *)

Module DatasetFacts.

Import Num Random Datetime Pipeline Dag NumFacts RoundFacts DagExamples.
Local Open Scope Q_scope.
Local Open Scope string_scope.

Lemma count_completed_from (tasks : list Task) (n : Z) :
  (n <= fold_left (fun n t => if completed t then n + 1 else n) tasks n
   <= n + Z.of_nat (List.length tasks))%Z.
Proof.
  revert n. induction tasks as [|t tasks IH]; intro n.
  - simpl. lia.
  - cbn [fold_left List.length]. rewrite Nat2Z.inj_succ.
    destruct (completed t).
    + specialize (IH (n + 1)%Z). lia.
    + specialize (IH n). lia.
Qed.

Lemma features_loop (tasks : list Task) (acc : list Feature) :
  fold_left (fun features task => (features ++ [feature_of_task task])%list)
    tasks acc
  = (acc ++ map feature_of_task tasks)%list.
Proof.
  revert acc. induction tasks as [|t tasks IH]; intro acc; simpl.
  - now rewrite app_nil_r.
  - rewrite IH. now rewrite <- app_assoc.
Qed.

(** X17: the dataset has one feature row per task, in the order of the
    tasks, and its size is their number; the statistics give that size as
    [total], and [completed] and [pending] are counts between 0 and the
    size that add up to it.  This holds for the empty list of tasks too. *)
Theorem prepare_dataset_counts (e : Extraction) :
  let d := prepare_dataset e in
  let done := count_completed (tasks e) in
  dataset_size d = Z.of_nat (List.length (tasks e))
  /\ features d = map feature_of_task (tasks e)
  /\ subscript (statistics d) "total" = Return (inject_Z (dataset_size d))
  /\ subscript (statistics d) "completed" = Return (inject_Z done)
  /\ subscript (statistics d) "pending"
     = Return (inject_Z (dataset_size d - done))
  /\ (0 <= done <= dataset_size d)%Z.
Proof.
  cbv zeta.
  pose proof (count_completed_from (tasks e) 0) as B.
  fold (count_completed (tasks e)) in B.
  unfold prepare_dataset. revert B.
  destruct (tasks e) as [|t ts]; intro B.
  - repeat split; try reflexivity; simpl in *; lia.
  - cbv zeta. cbn [dataset_size features statistics].
    rewrite features_loop.
    repeat split; trivial; lia.
Qed.

(** *** Averages *)

Lemma sum_from (xs : list Q) (acc : Q) :
  fold_left Qplus xs acc == acc + fold_left Qplus xs 0.
Proof.
  revert acc. induction xs as [|x xs IH]; intro acc; simpl.
  - ring.
  - rewrite (IH (acc + x)), (IH (0 + x)). ring.
Qed.

Lemma sum_between (xs : list Q) (lo hi : Q) :
  Forall (fun x => lo <= x /\ x <= hi) xs ->
  lo * inject_Z (Z.of_nat (List.length xs)) <= fold_left Qplus xs 0
  /\ fold_left Qplus xs 0 <= hi * inject_Z (Z.of_nat (List.length xs)).
Proof.
  induction 1 as [|x xs [L H] _ IH].
  - simpl. split; rewrite Qmult_0_r; apply Qle_refl.
  - cbn [fold_left List.length]. rewrite Nat2Z.inj_succ. unfold Z.succ.
    rewrite inject_Z_plus, sum_from. change (inject_Z 1) with 1.
    destruct IH as [IL IU]. split; lra.
Qed.

Lemma average_between (xs : list Q) (lo hi : Q) :
  xs <> [] ->
  Forall (fun x => lo <= x /\ x <= hi) xs ->
  lo <= average xs (Z.of_nat (List.length xs))
  /\ average xs (Z.of_nat (List.length xs)) <= hi.
Proof.
  intros N F. unfold average.
  assert (P : (0 < Z.of_nat (List.length xs))%Z)
    by (destruct xs; [contradiction | simpl; lia]).
  apply Z.ltb_lt in P as P'. rewrite P'.
  assert (Q0 : 0 < inject_Z (Z.of_nat (List.length xs))).
  { change 0 with (inject_Z 0). now rewrite <- Zlt_Qlt. }
  destruct (sum_between xs lo hi F) as [L U].
  split.
  - apply Qle_shift_div_l; trivial.
  - apply Qle_shift_div_r; trivial.
Qed.

Lemma averages_of_prepared_dataset (e : Extraction) :
  tasks e <> [] ->
  (Forall (fun t => 0 <= priority_score t /\ priority_score t <= 1) (tasks e) ->
   exists p,
     subscript (statistics (prepare_dataset e)) "avg_priority" = Return p
     /\ 0 <= p /\ p <= 1 /\ py_round p 3 == p)
  /\ (Forall (fun t => (0 <= duration_minutes t)%Z) (tasks e) ->
      exists m,
        subscript (statistics (prepare_dataset e)) "avg_duration" = Return m
        /\ 0 <= m).
Proof.
  intro N. unfold prepare_dataset.
  destruct (tasks e) as [|t ts] eqn:E; [contradiction|].
  cbv zeta. cbn [statistics].
  set (l := t :: ts) in *.
  split; intro F.
  - eexists. split; [reflexivity|].
    assert (A : 0 <= average (map priority_score l) (Z.of_nat (List.length l))
                /\ average (map priority_score l) (Z.of_nat (List.length l))
                   <= 1).
    { rewrite <- (length_map priority_score l).
      apply average_between.
      - unfold l. discriminate.
      - apply Forall_map. exact F. }
    destruct A as [A0 A1].
    set (a := average (map priority_score l) (Z.of_nat (List.length l))) in *.
    assert (R0 : (0 # 1000) <= py_round a 3).
    { apply (py_round_ge a 3 0).
      change (inject_Z 0 / inject_Z (10 ^ Z.of_nat 3)) with (0 # 1000). lra. }
    assert (R1 : py_round a 3 <= (1000 # 1000)).
    { apply (py_round_le a 3 1000).
      change (inject_Z 1000 / inject_Z (10 ^ Z.of_nat 3)) with (1000 # 1000).
      lra. }
    split; [lra|]. split; [lra|]. apply py_round_idem.
  - eexists. split; [reflexivity|].
    assert (A : 0 <= average (map (fun t => inject_Z (duration_minutes t)) l)
                       (Z.of_nat (List.length l))).
    { rewrite <- (length_map (fun t => inject_Z (duration_minutes t)) l).
      assert (F' : Forall (fun x => 0 <= x /\ x <= x)
                     (map (fun t => inject_Z (duration_minutes t)) l)).
      { apply Forall_map. eapply Forall_impl; [|exact F].
        intros a Ha. simpl. split; [|apply Qle_refl].
        change 0 with (inject_Z 0). now rewrite <- Zle_Qle. }
      clear F. unfold average.
      destruct (0 <? _)%Z eqn:P; [|apply Qle_refl].
      apply Z.ltb_lt in P.
      apply Qle_shift_div_l.
      - change 0 with (inject_Z 0). now rewrite <- Zlt_Qlt.
      - rewrite Qmult_0_l.
        clear P. induction F' as [|x xs [X0 _] _ IH]; [apply Qle_refl|].
        cbn [fold_left]. rewrite sum_from. lra. }
    set (a := average _ _) in *.
    assert (R0 : (0 # 100) <= py_round a 2).
    { apply (py_round_ge a 2 0).
      change (inject_Z 0 / inject_Z (10 ^ Z.of_nat 2)) with (0 # 100). lra. }
    lra.
Qed.

(** X18: when the list of tasks is not empty and every priority score lies
    between 0 and 1, the statistics hold an [avg_priority] between 0 and 1
    with three decimals; and when no duration is negative, they hold an
    [avg_duration] that is not negative. *)
Theorem prepare_dataset_averages (e : Extraction) :
  tasks e <> [] ->
  (Forall (fun t => 0 <= priority_score t /\ priority_score t <= 1) (tasks e) ->
   exists p,
     subscript (statistics (prepare_dataset e)) "avg_priority" = Return p
     /\ 0 <= p /\ p <= 1 /\ py_round p 3 == p)
  /\ (Forall (fun t => (0 <= duration_minutes t)%Z) (tasks e) ->
      exists m,
        subscript (statistics (prepare_dataset e)) "avg_duration" = Return m
        /\ 0 <= m).
Proof.
  exact (averages_of_prepared_dataset e).
Qed.

Lemma prepare_dataset_averages_witness :
  tasks two_tasks <> []
  /\ Forall (fun t => 0 <= priority_score t /\ priority_score t <= 1)
       (tasks two_tasks)
  /\ exists p,
       subscript (statistics (prepare_dataset two_tasks)) "avg_priority"
       = Return p
       /\ 0 <= p /\ p <= 1 /\ py_round p 3 == p.
Proof.
  assert (F : Forall (fun t => 0 <= priority_score t /\ priority_score t <= 1)
                (tasks two_tasks)).
  { repeat constructor; discriminate. }
  split; [discriminate|]. split; [exact F|].
  apply (prepare_dataset_averages two_tasks); [discriminate | exact F].
Defined.

End DatasetFacts.

(** ** airflow/dags/todo_ml_pipeline.py: training *)

Module TrainFacts.

Import Num Random Datetime Pipeline Dag NumFacts RoundFacts RandomFacts.
Import DatasetFacts DagExamples.
Local Open Scope Q_scope.
Local Open Scope string_scope.

Section Text.

Variable isoformat : datetime -> string.
Variable strftime : datetime -> string -> string.
Variable json_dumps : ModelRules -> string.

Lemma train_model_on_empty (e : Extraction) (w : World) :
  tasks e = [] ->
  exists uri run_name mae w',
    train_model isoformat strftime json_dumps (prepare_dataset e) w
    = (Raised (KeyError "avg_duration"), w')
    /\ calls w'
       = (calls w
          ++ [SetTrackingUri uri;
              SetExperiment "todo-priority-model";
              StartRun run_name;
              LogParam "model_type" (PStr "rule_based");
              LogParam "training_samples" (PNum (inject_Z 0));
              LogParam "keyword_bonus" (PNum 0.35);
              LogParam "tag_bonus" (PNum 0.10);
              LogParam "duration_penalty" (PNum 0.08);
              LogMetric "mae" mae;
              LogMetric "f1" (py_round (1 - mae) 3);
              LogMetric "dataset_size" (inject_Z 0);
              LogMetric "completed_ratio" 0;
              EndRun FAILED])%list.
Proof.
  intro E. unfold prepare_dataset. rewrite E.
  cbv beta iota zeta delta
    [train_model choose_weights run_body with_run Pipeline.bind Pipeline.ret
     call getenv lookup random_uniform utcnow subscript
     dataset_size statistics Z.ltb Z.compare
     String.eqb Ascii.eqb Bool.eqb
     environ utc_clock clock_reads rng postgres run_info calls
     keyword_bonus tag_bonus duration_penalty weights].
  destruct (uniform 0.05 0.25 (rng w)) as [u g].
  cbv beta iota zeta delta
    [subscript String.eqb Ascii.eqb Bool.eqb calls].
  do 4 eexists. split; [reflexivity|].
  cbn [calls]. rewrite <- !app_assoc. reflexivity.
Qed.

(** X19: on the dataset that [prepare_dataset] builds from an empty list of
    tasks, [train_model] raises [KeyError] for "avg_duration": the
    statistics of that dataset have no averages.  By then it has started a
    run and logged the default weights 0.35, 0.10 and 0.08 and four metrics;
    the run is ended as failed and no result is returned. *)
Theorem train_model_fails_on_empty_dataset (e : Extraction) (w : World) :
  tasks e = [] ->
  exists uri run_name mae w',
    train_model isoformat strftime json_dumps (prepare_dataset e) w
    = (Raised (KeyError "avg_duration"), w')
    /\ calls w'
       = (calls w
          ++ [SetTrackingUri uri;
              SetExperiment "todo-priority-model";
              StartRun run_name;
              LogParam "model_type" (PStr "rule_based");
              LogParam "training_samples" (PNum (inject_Z 0));
              LogParam "keyword_bonus" (PNum 0.35);
              LogParam "tag_bonus" (PNum 0.10);
              LogParam "duration_penalty" (PNum 0.08);
              LogMetric "mae" mae;
              LogMetric "f1" (py_round (1 - mae) 3);
              LogMetric "dataset_size" (inject_Z 0);
              LogMetric "completed_ratio" 0;
              EndRun FAILED])%list.
Proof.
  exact (train_model_on_empty e w).
Qed.


Lemma duration_factor_weights (avg_duration : Q) :
  let duration_factor :=
    if Qltb 0 avg_duration then py_min (avg_duration / 60.0) 1.0 else 0.5 in
  0.2 <= py_round (0.2 + duration_factor * 0.3) 2
  /\ py_round (0.2 + duration_factor * 0.3) 2 <= 0.5
  /\ 0.05 <= py_round (0.05 + duration_factor * 0.1) 2
  /\ py_round (0.05 + duration_factor * 0.1) 2 <= 0.15.
Proof.
  cbv zeta.
  set (df := if Qltb 0 avg_duration then _ else _).
  assert (D : 0 <= df /\ df <= 1).
  { unfold df. destruct (Qltb 0 avg_duration) eqn:P.
    - apply Qltb_lt in P. rewrite py_min_Qmin. split.
      + apply Q.min_glb; [|discriminate].
        apply Qle_shift_div_l; [reflexivity | lra].
      + apply Qle_trans with (1.0); [apply Q.le_min_r | discriminate].
    - split; discriminate. }
  destruct D as [D0 D1].
  assert (K0 : (20 # 100) <= py_round (0.2 + df * 0.3) 2).
  { apply (py_round_ge _ 2 20).
    change (inject_Z 20 / inject_Z (10 ^ Z.of_nat 2)) with (20 # 100). lra. }
  assert (K1 : py_round (0.2 + df * 0.3) 2 <= (50 # 100)).
  { apply (py_round_le _ 2 50).
    change (inject_Z 50 / inject_Z (10 ^ Z.of_nat 2)) with (50 # 100). lra. }
  assert (P0 : (5 # 100) <= py_round (0.05 + df * 0.1) 2).
  { apply (py_round_ge _ 2 5).
    change (inject_Z 5 / inject_Z (10 ^ Z.of_nat 2)) with (5 # 100). lra. }
  assert (P1 : py_round (0.05 + df * 0.1) 2 <= (15 # 100)).
  { apply (py_round_le _ 2 15).
    change (inject_Z 15 / inject_Z (10 ^ Z.of_nat 2)) with (15 # 100). lra. }
  repeat split; lra.
Qed.

Lemma priority_factor_weight (p : Q) :
  0 <= p -> p <= 1 ->
  0.05 <= py_round (0.05 + p * 0.15) 2
  /\ py_round (0.05 + p * 0.15) 2 <= 0.2.
Proof.
  intros P0 P1.
  assert (T0 : (5 # 100) <= py_round (0.05 + p * 0.15) 2).
  { apply (py_round_ge _ 2 5).
    change (inject_Z 5 / inject_Z (10 ^ Z.of_nat 2)) with (5 # 100). lra. }
  assert (T1 : py_round (0.05 + p * 0.15) 2 <= (20 # 100)).
  { apply (py_round_le _ 2 20).
    change (inject_Z 20 / inject_Z (10 ^ Z.of_nat 2)) with (20 # 100). lra. }
  split; lra.
Qed.

(** X20: on the dataset that [prepare_dataset] builds from a list of tasks
    that is not empty, [train_model] returns.  The weights it reports have
    a [keyword_bonus] between 0.2 and 0.5 and a [duration_penalty] between
    0.05 and 0.15 whatever the durations, and a [tag_bonus] between 0.05
    and 0.2 when every priority score lies between 0 and 1; [mae] is
    between 0.05 and 0.25, [f1] is between 0.75 and 0.95 and within half a
    thousandth of [1 - mae]; the training samples are the number of tasks;
    and the last call to MLflow ends the run as finished. *)
Theorem train_model_reports_weights_in_range (e : Extraction) (w : World) :
  tasks e <> [] ->
  exists r w' sent,
    train_model isoformat strftime json_dumps (prepare_dataset e) w
    = (Return r, w')
    /\ calls w' = (calls w ++ sent)%list
    /\ last sent (EndRun FAILED) = EndRun FINISHED
    /\ 0.2 <= keyword_bonus (model_params r)
    /\ keyword_bonus (model_params r) <= 0.5
    /\ 0.05 <= duration_penalty (model_params r)
    /\ duration_penalty (model_params r) <= 0.15
    /\ (Forall (fun t => 0 <= priority_score t /\ priority_score t <= 1)
          (tasks e) ->
        0.05 <= tag_bonus (model_params r)
        /\ tag_bonus (model_params r) <= 0.2)
    /\ 0.05 <= metric_mae r /\ metric_mae r <= 0.25
    /\ 0.75 <= metric_f1 r /\ metric_f1 r <= 0.95
    /\ 1 - metric_mae r - 0.0005 <= metric_f1 r
    /\ metric_f1 r <= 1 - metric_mae r + 0.0005
    /\ training_samples r = Z.of_nat (List.length (tasks e))
    /\ (run_id r, experiment_id r) = run_info w.
Proof.
  intro N.
  destruct (averages_of_prepared_dataset e N) as [AP _].
  revert AP. unfold prepare_dataset.
  destruct (tasks e) as [|t ts] eqn:E; [contradiction|].
  set (l := t :: ts) in *.
  cbv zeta. cbn [statistics]. intro AP.
  set (avg_d := py_round (average (map (fun t => inject_Z (duration_minutes t)) l)
                            (Z.of_nat (List.length l))) 2) in *.
  set (avg_p := py_round (average (map priority_score l)
                            (Z.of_nat (List.length l))) 3) in *.
  assert (S : (0 <? Z.of_nat (List.length l))%Z = true) by reflexivity.
  assert (TB : Forall (fun t => 0 <= priority_score t /\ priority_score t <= 1) l ->
               0.05 <= py_round (0.05 + avg_p * 0.15) 2
               /\ py_round (0.05 + avg_p * 0.15) 2 <= 0.2).
  { intro F. destruct (AP F) as (p & Ep & P0 & P1 & _).
    cbv in Ep. injection Ep as <-. now apply priority_factor_weight. }
  clear AP.
  pose proof (duration_factor_weights avg_d) as DF. cbv zeta in DF.
  destruct w as [env clk reads g0 db [rid eid] cs].
  destruct (uniform_between 0.05 0.25 g0) as (U0 & U1 & _); [discriminate|].
  cbv beta iota zeta delta
    [train_model choose_weights run_body with_run Pipeline.bind Pipeline.ret
     call getenv lookup random_uniform utcnow subscript
     dataset_size statistics
     String.eqb Ascii.eqb Bool.eqb
     environ utc_clock clock_reads rng postgres run_info calls
     keyword_bonus tag_bonus duration_penalty weights].
  rewrite S.
  cbv beta iota zeta delta
    [Pipeline.bind Pipeline.ret call lookup subscript
     String.eqb Ascii.eqb Bool.eqb
     environ utc_clock clock_reads rng postgres run_info calls].
  destruct (Qltb 0 avg_d).
  all: cbv beta iota zeta delta
         [Pipeline.bind Pipeline.ret call lookup subscript random_uniform
          String.eqb Ascii.eqb Bool.eqb
          environ utc_clock clock_reads rng postgres run_info calls].
  all: destruct (uniform 0.05 0.25 g0) as [u g]; cbn [fst] in U0, U1.
  all: assert (M : (50 # 1000) <= py_round u 3
                   /\ py_round u 3 <= (250 # 1000))
         by (split; [apply (py_round_ge u 3 50) | apply (py_round_le u 3 250)];
             [change (inject_Z 50 / inject_Z (10 ^ Z.of_nat 3))
                with (50 # 1000)
             |change (inject_Z 250 / inject_Z (10 ^ Z.of_nat 3))
                with (250 # 1000)];
             lra).
  all: assert (F : (750 # 1000) <= py_round (1 - py_round u 3) 3
                   /\ py_round (1 - py_round u 3) 3 <= (950 # 1000))
         by (split;
             [apply (py_round_ge _ 3 750) | apply (py_round_le _ 3 950)];
             [change (inject_Z 750 / inject_Z (10 ^ Z.of_nat 3))
                with (750 # 1000)
             |change (inject_Z 950 / inject_Z (10 ^ Z.of_nat 3))
                with (950 # 1000)];
             lra).
  all: pose proof (round3_near (1 - py_round u 3)) as F1.
  all: cbv beta iota zeta delta
         [Pipeline.bind Pipeline.ret call lookup subscript
          String.eqb Ascii.eqb Bool.eqb
          environ utc_clock clock_reads rng postgres run_info calls].
  all: eexists; eexists; eexists.
  all: split; [reflexivity|].
  all: cbn [calls run_id experiment_id metric_mae metric_f1 model_params
            training_samples keyword_bonus tag_bonus duration_penalty
            fst snd run_info].
  all: split; [rewrite <- !app_assoc; cbn [app]; reflexivity|].
  all: split; [reflexivity|].
  all: repeat split; trivial; try tauto; try lra.
Qed.



End Text.

Lemma train_model_fails_on_empty_dataset_witness :
  tasks no_tasks = []
  /\ fst (train_model iso fmt dumps (prepare_dataset no_tasks)
            (world_with (healthy [])))
     = Raised (KeyError "avg_duration").
Proof.
  split; [reflexivity|].
  destruct (train_model_fails_on_empty_dataset iso fmt dumps no_tasks
              (world_with (healthy [])) eq_refl)
    as (uri & run_name & mae & w' & E & _).
  now rewrite E.
Defined.

Lemma train_model_reports_weights_in_range_witness :
  tasks two_tasks <> []
  /\ exists r w',
       train_model iso fmt dumps (prepare_dataset two_tasks)
         (world_with (healthy []))
       = (Return r, w')
       /\ 0.2 <= keyword_bonus (model_params r)
       /\ keyword_bonus (model_params r) <= 0.5
       /\ 0.75 <= metric_f1 r /\ metric_f1 r <= 0.95.
Proof.
  split; [discriminate|].
  destruct (train_model_reports_weights_in_range iso fmt dumps two_tasks
              (world_with (healthy [])))
    as (r & w' & sent & E & _ & _ & K0 & K1 & _ & _ & _ & _ & _ & F0 & F1 & _);
    [discriminate|].
  exists r, w'. repeat split; assumption.
Defined.

End TrainFacts.

(** ** airflow/dags/todo_ml_pipeline.py: extraction, and the DAG *)

Module ExtractFacts.

Import Num Random Datetime Pipeline Dag DagTerms DatasetFacts TrainFacts.
Import DagExamples.
Local Open Scope Q_scope.
Local Open Scope string_scope.

Section Text.

Variable isoformat : datetime -> string.
Variable strftime : datetime -> string -> string.
Variable json_dumps : ModelRules -> string.
Variable int_of_str : string -> option Z.

Lemma tasks_loop (rows : list Row) (acc : list Task) :
  fold_left (fun tasks row => (tasks ++ [task_of_row isoformat row])%list)
    rows acc
  = (acc ++ map (task_of_row isoformat) rows)%list.
Proof.
  revert acc. induction rows as [|row rows IH]; intro acc; simpl.
  - now rewrite app_nil_r.
  - rewrite IH. now rewrite <- app_assoc.
Qed.

Lemma count_completed_rows (rows : list Row) (n : Z) :
  fold_left (fun n t => if completed t then n + 1 else n)%Z
    (map (task_of_row isoformat) rows) n
  = (n + Z.of_nat (List.length (filter row_completed rows)))%Z.
Proof.
  revert n. induction rows as [|row rows IH]; intro n.
  - simpl. lia.
  - cbn [map fold_left filter]. rewrite IH.
    cbn [completed task_of_row].
    destruct (row_completed row); cbn [List.length]; lia.
Qed.

Lemma extract_tasks_on_healthy (w : World) (p : Z) (rows : list Row) :
  int_of_str (port_text w) = Some p ->
  on_connect (postgres w) = None ->
  on_cursor (postgres w) = None ->
  on_execute (postgres w) = None ->
  on_fetchall (postgres w) = Return rows ->
  exists x w',
    extract_tasks isoformat int_of_str w = (Return x, w')
    /\ tasks x = map (task_of_row isoformat) rows
    /\ total_count x = Z.of_nat (List.length rows)
    /\ completed_count x = Z.of_nat (List.length (filter row_completed rows))
    /\ calls w'
       = (calls w
          ++ [Connect (config_of w p) "prefer" 10; Cursor; Execute query;
              Fetchall; CursorClose; ConnectionClose])%list.
Proof.
  destruct w as [env clk reads g [oc ocu oe ofa] info cs].
  unfold port_text, config_of. cbn [environ postgres on_connect on_cursor
                                    on_execute on_fetchall calls].
  intros P -> -> -> ->.
  cbv beta iota zeta delta
    [extract_tasks extract_body try_finally close_if_connected db_call
     Pipeline.bind Pipeline.ret Pipeline.raise call getenv utcnow
     environ utc_clock clock_reads rng postgres run_info calls
     on_connect on_cursor on_execute on_fetchall].
  rewrite P.
  cbv beta iota zeta delta
    [Pipeline.bind Pipeline.ret call
     environ utc_clock clock_reads rng postgres run_info calls
     on_connect on_cursor on_execute on_fetchall].
  rewrite tasks_loop. cbn [app].
  eexists; eexists. split; [reflexivity|].
  cbn [tasks total_count completed_count calls].
  repeat split.
  - now rewrite length_map.
  - unfold count_completed. now rewrite count_completed_rows.
  - rewrite <- !app_assoc. reflexivity.
Qed.

(** X21: when the port is a number and the database answers every call,
    [extract_tasks] returns one task per row in the order of the rows, with
    [total_count] the number of rows and [completed_count] the number of
    completed rows; it has made six calls to Postgres, the last two closing
    the cursor and the connection. *)
Theorem extract_tasks_returns_the_rows (w : World) (p : Z) (rows : list Row) :
  int_of_str (port_text w) = Some p ->
  on_connect (postgres w) = None ->
  on_cursor (postgres w) = None ->
  on_execute (postgres w) = None ->
  on_fetchall (postgres w) = Return rows ->
  exists x w',
    extract_tasks isoformat int_of_str w = (Return x, w')
    /\ tasks x = map (task_of_row isoformat) rows
    /\ total_count x = Z.of_nat (List.length rows)
    /\ completed_count x = Z.of_nat (List.length (filter row_completed rows))
    /\ calls w'
       = (calls w
          ++ [Connect (config_of w p) "prefer" 10; Cursor; Execute query;
              Fetchall; CursorClose; ConnectionClose])%list.
Proof.
  exact (extract_tasks_on_healthy w p rows).
Qed.

(** X22: [extract_tasks] closes the connection exactly when it has opened
    it, and passes on the first refusal.  With a port that is not a number
    it raises [ValueError] before any call.  Otherwise it calls [connect].
    If [connect] is refused, its exception is raised and nothing else is
    called.  If [cursor], [execute] or [fetchall] is the first call to be
    refused, its exception is raised, no later query call is made, the
    cursor is left unclosed and the one call after the refused one closes
    the connection.  If nothing is refused a result is returned after the
    cursor and then the connection have been closed.  In every case with
    the connection opened, the last call closes it and no earlier call
    does. *)
Theorem extract_tasks_closes_what_it_opened (w : World) :
  (int_of_str (port_text w) = None ->
   extract_tasks isoformat int_of_str w = (Raised ValueError, w))
  /\ (forall p,
         int_of_str (port_text w) = Some p ->
         exists r w' sent,
           extract_tasks isoformat int_of_str w = (r, w')
           /\ calls w'
              = (calls w ++ Connect (config_of w p) "prefer" 10 :: sent)%list
           /\ (forall e, on_connect (postgres w) = Some e ->
                         r = Raised e /\ sent = [])
           /\ (on_connect (postgres w) = None ->
               last sent Cursor = ConnectionClose
               /\ ~ In ConnectionClose (removelast sent))
           /\ (forall e, r = Raised e ->
                         on_connect (postgres w) = Some e
                         \/ on_cursor (postgres w) = Some e
                         \/ on_execute (postgres w) = Some e
                         \/ on_fetchall (postgres w) = Raised e)
           /\ (forall e, on_connect (postgres w) = None ->
                         on_cursor (postgres w) = None ->
                         on_execute (postgres w) = Some e ->
                         r = Raised e
                         /\ sent = [Cursor; Execute query; ConnectionClose])
           /\ (forall e, on_connect (postgres w) = None ->
                         on_cursor (postgres w) = Some e ->
                         r = Raised e
                         /\ sent = [Cursor; ConnectionClose])
           /\ (forall e, on_connect (postgres w) = None ->
                         on_cursor (postgres w) = None ->
                         on_execute (postgres w) = None ->
                         on_fetchall (postgres w) = Raised e ->
                         r = Raised e
                         /\ sent = [Cursor; Execute query; Fetchall;
                                    ConnectionClose])
           /\ (forall rows, on_connect (postgres w) = None ->
                            on_cursor (postgres w) = None ->
                            on_execute (postgres w) = None ->
                            on_fetchall (postgres w) = Return rows ->
                            (exists x,
                                r = Return x
                                /\ tasks x = map (task_of_row isoformat) rows)
                            /\ sent = [Cursor; Execute query; Fetchall;
                                       CursorClose; ConnectionClose])).
Proof.
  destruct w as [env clk reads g [oc ocu oe ofa] info cs].
  unfold port_text, config_of. cbn [environ postgres on_connect on_cursor
                                    on_execute on_fetchall calls].
  split.
  - intro P.
    cbv beta iota zeta delta
      [extract_tasks Pipeline.bind Pipeline.ret Pipeline.raise getenv
       environ].
    rewrite P. reflexivity.
  - intros p P.
    cbv beta iota zeta delta
      [extract_tasks extract_body try_finally close_if_connected db_call
       Pipeline.bind Pipeline.ret Pipeline.raise call getenv utcnow
       environ utc_clock clock_reads rng postgres run_info calls
       on_connect on_cursor on_execute on_fetchall].
    rewrite P.
    destruct oc as [e1|]; [|destruct ocu as [e2|];
                             [|destruct oe as [e3|];
                               [|destruct ofa as [rows|e4]]]].
    all: cbv beta iota zeta delta
           [Pipeline.bind Pipeline.ret call
            environ utc_clock clock_reads rng postgres run_info calls
            on_connect on_cursor on_execute on_fetchall].
    all: eexists; eexists; eexists.
    all: split; [reflexivity|].
    all: cbn [calls].
    all: split; [rewrite <- ?app_assoc; cbn [app]; reflexivity|].
    all: repeat match goal with |- _ /\ _ => split end.
    all: try discriminate; try congruence.
    all: try (intros e [= <-]; tauto).
    all: try (cbn; intuition discriminate).
    all: intros; split; [|reflexivity]; try congruence.
    eexists. split; [reflexivity|].
    cbn [tasks]. rewrite tasks_loop. cbn [app]. congruence.
Qed.

(** X23: on an empty table the DAG fails.  When the port is a number and
    the database answers every call with no rows, [extract_tasks] returns,
    and [train_model] raises [KeyError] for "avg_duration" on the dataset
    that [prepare_dataset] makes of it; the connection has been closed and
    the MLflow run is ended as failed. *)
Theorem pipeline_fails_on_empty_table (w : World) (p : Z) :
  int_of_str (port_text w) = Some p ->
  postgres w = healthy [] ->
  exists w' sent,
    todo_ml_pipeline isoformat strftime json_dumps int_of_str w
    = (Raised (KeyError "avg_duration"), w')
    /\ calls w' = (calls w ++ sent)%list
    /\ In ConnectionClose sent
    /\ last sent Cursor = EndRun FAILED.
Proof.
  intros P H.
  destruct (extract_tasks_on_healthy w p [] P)
    as (x & w1 & E & T & _ & _ & C); try (rewrite H; reflexivity).
  destruct (train_model_on_empty isoformat strftime json_dumps x w1 T)
    as (uri & name & mae & w2 & E2 & C2).
  exists w2. eexists.
  unfold todo_ml_pipeline, Pipeline.bind. rewrite E, E2.
  split; [reflexivity|].
  rewrite C2, C, <- app_assoc.
  split; [reflexivity|].
  split; [cbn; tauto | reflexivity].
Qed.

End Text.

Lemma extract_tasks_returns_the_rows_witness :
  exists x w',
    extract_tasks iso to_int (world_with (healthy [row_done; row_open]))
    = (Return x, w')
    /\ tasks x = map (task_of_row iso) [row_done; row_open]
    /\ total_count x = 2%Z
    /\ completed_count x = 1%Z.
Proof.
  destruct (extract_tasks_returns_the_rows iso to_int
              (world_with (healthy [row_done; row_open])) 5432
              [row_done; row_open])
    as (x & w' & E & T & N & D & _); try reflexivity.
  exists x, w'. repeat split; assumption.
Defined.

Lemma extract_tasks_closes_what_it_opened_witness :
  (fst (extract_tasks iso to_int (world_with refusing_query))
   = Raised (DatabaseError "relation todos does not exist")
   /\ calls (snd (extract_tasks iso to_int (world_with refusing_query)))
      = [Connect (config_of (world_with refusing_query) 5432) "prefer" 10;
         Cursor; Execute query; ConnectionClose])
  /\ (fst (extract_tasks iso to_int (world_with refusing_cursor))
      = Raised (DatabaseError "connection already closed")
      /\ calls (snd (extract_tasks iso to_int (world_with refusing_cursor)))
         = [Connect (config_of (world_with refusing_cursor) 5432) "prefer" 10;
            Cursor; ConnectionClose]).
Proof.
  split.
  - destruct (extract_tasks_closes_what_it_opened iso to_int
                (world_with refusing_query)) as [_ H].
    destruct (H 5432%Z eq_refl)
      as (r & w' & sent & E & C & _ & _ & _ & X & _).
    destruct (X (DatabaseError "relation todos does not exist")
                eq_refl eq_refl eq_refl) as [-> ->].
    rewrite E. split; [reflexivity | exact C].
  - destruct (extract_tasks_closes_what_it_opened iso to_int
                (world_with refusing_cursor)) as [_ H].
    destruct (H 5432%Z eq_refl)
      as (r & w' & sent & E & C & _ & _ & _ & _ & X & _).
    destruct (X (DatabaseError "connection already closed")
                eq_refl eq_refl) as [-> ->].
    rewrite E. split; [reflexivity | exact C].
Defined.

Lemma pipeline_fails_on_empty_table_witness :
  fst (todo_ml_pipeline iso fmt dumps to_int (world_with (healthy [])))
  = Raised (KeyError "avg_duration").
Proof.
  destruct (pipeline_fails_on_empty_table iso fmt dumps to_int
              (world_with (healthy [])) 5432 eq_refl eq_refl)
    as (w' & sent & E & _).
  now rewrite E.
Defined.

End ExtractFacts.
